(** * TubeViT training script (scripts/train.py): model and verification

    The script is glue over torch, torchvision, click and pytorch_lightning.
    The embedding keeps the script's own code concrete (the [ResizedVideo]
    transform, the [MyUCF101] adapter, the metadata cache, the sampler and
    loader configuration, the command line) and takes the libraries it
    calls as an interface, [Externals], whose operations may read and
    change the outside world and may raise. *)

From Stdlib Require Import ZArith Lia Ascii.
From Stdlib Require DecimalString DecimalZ DecimalPos.
From stdpp Require Import base option list strings gmap.

Local Open Scope Z_scope.

(** ** Python values, exceptions and results *)

(** The exceptions that can reach the top level of the script. *)
Inductive exn : Type :=
  | AssertionError (msg : string)
  | IndexError
  | ValueError (msg : string)
  | TypeError
  | StopIteration
  | FileNotFoundError (path : string)
  | IsADirectoryError (path : string)
  | UnpicklingError
  | MissingParameter (param : string)
  | BadParameter (param : string)
  | LibraryError (msg : string).

Inductive result (A : Type) : Type :=
  | Ok (a : A)
  | Err (e : exn).
Arguments Ok {A} a.
Arguments Err {A} e.

Definition rbind {A B} (r : result A) (k : A → result B) : result B :=
  match r with
  | Ok a => k a
  | Err e => Err e
  end.

Definition is_ok {A} (r : result A) : bool :=
  match r with Ok _ => true | Err _ => false end.

(** The untyped values that the script passes around: the [size] argument
    of [ResizedVideo] and the values click hands to [main]. *)
#[warnings="-register-all"]
Inductive pyval : Type :=
  | PNone
  | PBool (b : bool)
  | PInt (z : Z)
  | PStr (s : string)
  | PTuple (items : list pyval)
  | PList (items : list pyval).

(** [isinstance(v, tuple)] *)
Definition isinstance_tuple (v : pyval) : bool :=
  match v with PTuple _ => true | _ => false end.

(** [l[i]] on a Python list: negative indices count from the end, anything
    out of range raises IndexError. *)
Definition py_index {A} (l : list A) (i : Z) : result A :=
  let n := Z.of_nat (length l) in
  let j := if i <? 0 then i + n else i in
  if (0 <=? j) && (j <? n)
  then match l !! Z.to_nat j with
       | Some x => Ok x
       | None => Err IndexError
       end
  else Err IndexError.

(** ** The outside world *)

Inductive fsnode : Type :=
  | File (content : list Byte.byte)
  | Dir.

(** What a run can observe and change: the file system, the seed of the
    random generators, what was printed, and three counters of the work
    done by the libraries (video indexing scans, training and validation
    steps). *)
Record World : Type := mkWorld {
  fs : gmap string fsnode;
  rng_seed : option Z;
  stdout : list (list Z);
  index_scans : nat;
  train_steps : nat;
  val_steps : nat;
}.

Definition set_fs (f : gmap string fsnode → gmap string fsnode) (w : World) : World :=
  mkWorld (f (fs w)) (rng_seed w) (stdout w) (index_scans w) (train_steps w) (val_steps w).

Definition set_stdout (f : list (list Z) → list (list Z)) (w : World) : World :=
  mkWorld (fs w) (rng_seed w) (f (stdout w)) (index_scans w) (train_steps w) (val_steps w).

(** Computations that can raise and that thread the world; an exception
    keeps the world as it was when it was raised. *)
Definition M (A : Type) : Type := World → result A * World.

Definition ret {A} (a : A) : M A := fun w => (Ok a, w).

Definition raise {A} (e : exn) : M A := fun w => (Err e, w).

Definition bind {A B} (c : M A) (k : A → M B) : M B :=
  fun w => match c w with
           | (Ok a, w') => k a w'
           | (Err e, w') => (Err e, w')
           end.

Definition lift {A} (r : result A) : M A := fun w => (r, w).

Notation "'let*' x ':=' c 'in' k" := (bind c (fun x => k))
  (at level 10, x pattern, c at level 100, k at level 200).
Notation "c ;; k" := (bind c (fun _ => k))
  (at level 100, k at level 200, right associativity).

(** [os.path.exists(path)] *)
Definition os_path_exists (path : string) : M bool :=
  fun w => (Ok (bool_decide (is_Some (fs w !! path))), w).

(** [open(path, 'rb').read()] *)
Definition read_file (path : string) : M (list Byte.byte) :=
  fun w => match fs w !! path with
           | Some (File content) => (Ok content, w)
           | Some Dir => (Err (IsADirectoryError path), w)
           | None => (Err (FileNotFoundError path), w)
           end.

(** [open(path, 'wb').write(content)]: creates or replaces the file. *)
Definition write_file (path : string) (content : list Byte.byte) : M unit :=
  fun w => match fs w !! path with
           | Some Dir => (Err (IsADirectoryError path), w)
           | _ => (Ok tt, set_fs (insert path (File content)) w)
           end.

(** ** The libraries, as an interface *)

(** The data the libraries own. *)
Class ExternalTypes : Type := {
  Tensor : Type;      (* torch.Tensor *)
  Info : Type;        (* the info dict of a clip *)
  Metadata : Type;    (* VideoClips.metadata *)
  Model : Type;       (* TubeViTLightningModule *)
  Trainer : Type;     (* pl.Trainer *)
}.

Section Data.
Context `{ExternalTypes}.

(** A transform is any callable on a clip: it may draw random numbers and
    it may raise. *)
Definition Transform : Type := Tensor → M Tensor.

(** The keyword arguments [main] passes to the dataset constructor. *)
Record UCF101_kwargs : Type := {
  kw_root : string;
  kw_annotation_path : string;
  kw_precomputed_metadata : option Metadata;
  kw_frames_per_clip : Z;
  kw_train : bool;
  kw_output_format : string;
  kw_num_workers : Z;
  kw_transform : option Transform;
}.

(** The attributes of a torchvision [UCF101] object that the script reads. *)
Record UCF101 : Type := {
  video_clips_get_clip : Z → M (Tensor * Tensor * Info * Z);
  video_clips_num_clips : Z;
  samples : list (string * Z);
  indices : list Z;
  transform : option Transform;
  metadata : Metadata;
}.

(** [class MyUCF101(UCF101)]: the inherited object and the one attribute
    the subclass adds. *)
Record MyUCF101 : Type := {
  base : UCF101;
  frame_transform : option Transform;
}.

(** [len(dataset)], inherited: the number of clips. *)
Definition len (ds : MyUCF101) : Z := video_clips_num_clips (base ds).

Record RandomSampler : Type := {
  data_source : MyUCF101;
  num_samples : Z;
}.

Record DataLoader : Type := {
  dataset : MyUCF101;
  batch_size : Z;
  dl_num_workers : Z;
  shuffle : bool;
  drop_last : bool;
  sampler : RandomSampler;
}.

(** The keyword arguments of [TubeViTLightningModule]; [lr] is a decimal
    literal, mantissa and exponent (1e-4). *)
Record Model_kwargs : Type := {
  mk_num_classes : Z;
  mk_video_shape : list Z;
  mk_num_layers : Z;
  mk_num_heads : Z;
  mk_hidden_dim : Z;
  mk_mlp_dim : Z;
  mk_lr : Z * Z;
  mk_weight_path : string;
}.

End Data.

(** The operations of torch, torchvision, pickle, pytorch_lightning and the
    model package that the script calls. *)
Class Externals `{ExternalTypes} : Type := {
  shape : Tensor → list Z;
  (* torchvision.transforms._functional_video.resize *)
  resize : Tensor → pyval → string → result Tensor;
  ToTensorVideo : Transform;
  RandomHorizontalFlipVideo : Transform;
  RandomResizedCropVideo : pyval → Transform;
  pickle_loads : list Byte.byte → result Metadata;
  pickle_dumps : Metadata → list Byte.byte;
  UCF101_init : UCF101_kwargs → M UCF101;
  seed_everything : Z → M Z;
  (* the first batch of [iter(loader)] when the loader has one *)
  load_first_batch : DataLoader → M (Tensor * Tensor);
  TubeViTLightningModule_init : Model_kwargs → M Model;
  (* pl.Trainer(max_epochs, accelerator, fast_dev_run) *)
  Trainer_init : Z → string → bool → M Trainer;
  Trainer_fit : Trainer → Model → DataLoader → DataLoader → M Trainer;
  Trainer_save_checkpoint : Trainer → string → M unit;
  (* int(s), as click's INT type calls it *)
  py_int : string → option Z;
}.

Section Script.
Context `{Externals}.

(** ** class ResizedVideo *)

Record ResizedVideo : Type := {
  rv_size : pyval;
  rv_interpolation_mode : string;
}.

(** [ResizedVideo.__init__(size, interpolation_mode)] *)
Definition ResizedVideo_init (size : pyval) (interpolation_mode : string)
    : result ResizedVideo :=
  match size with
  | PTuple items =>
      if bool_decide (length items = 2%nat)
      then Ok {| rv_size := size; rv_interpolation_mode := interpolation_mode |}
      else Err (AssertionError "size should be tuple (height, width)")
  | _ =>
      Ok {| rv_size := PTuple [size; size];
            rv_interpolation_mode := interpolation_mode |}
  end.

(** The default of the [interpolation_mode] parameter. *)
Definition default_interpolation_mode : string := "bilinear".

(** [ResizedVideo.__call__(clip)] *)
Definition ResizedVideo_call (self : ResizedVideo) (clip : Tensor) : result Tensor :=
  resize clip (rv_size self) (rv_interpolation_mode self).

(** A [ResizedVideo] object used as a step of a transform pipeline. *)
Definition ResizedVideo_transform (self : ResizedVideo) : Transform :=
  fun clip => lift (ResizedVideo_call self clip).

(** ** class MyUCF101 *)

(** [MyUCF101.__init__(frame_transform, *args, **kwargs)] *)
Definition MyUCF101_init (frame_transform : option Transform) (kwargs : UCF101_kwargs)
    : M MyUCF101 :=
  let* b := UCF101_init kwargs in
  ret {| base := b; frame_transform := frame_transform |}.

(** [MyUCF101.__getitem__(idx)] *)
Definition MyUCF101_getitem (self : MyUCF101) (idx : Z) : M (Tensor * Z) :=
  let* (video, audio, info, video_idx) := video_clips_get_clip (base self) idx in
  let* sample_idx := lift (py_index (indices (base self)) video_idx) in
  let* sample := lift (py_index (samples (base self)) sample_idx) in
  let label := sample.2 in
  let* video := match transform (base self) with
                | Some t => t video
                | None => ret video
                end in
  ret (video, label).

(** ** main: transforms and the metadata cache (lines 77 to 130) *)

(** The parameters of [main], as click passes them. *)
Record Args : Type := {
  dataset_root : string;
  annotation_path : string;
  num_classes : Z;
  arg_batch_size : Z;
  frames_per_clip : Z;
  video_size : Z * Z;
  max_epochs : Z;
  num_workers : Z;
  fast_dev_run : bool;
  seed : Z;
}.

(** [T.Compose(transforms)] *)
Fixpoint Compose (ts : list Transform) : Transform :=
  fun clip =>
    match ts with
    | [] => ret clip
    | t :: ts' => let* clip' := t clip in Compose ts' clip'
    end.

Inductive Split : Type := Train | Val.

Definition metadata_file (s : Split) : string :=
  match s with
  | Train => "ucf101-train-meta.pickle"
  | Val => "ucf101-val-meta.pickle"
  end.

(** Lines 91 to 94 and 112 to 115: the precomputed metadata, when the cache
    file is there. *)
Definition load_precomputed_metadata (file : string) : M (option Metadata) :=
  let* present := os_path_exists file in
  if present
  then let* content := read_file file in
       let* md := lift (pickle_loads content) in
       ret (Some md)
  else ret None.

(** Lines 107 to 109 and 128 to 130: write the cache when it is not there. *)
Definition save_metadata (file : string) (ds : MyUCF101) : M unit :=
  let* present := os_path_exists file in
  if negb present
  then write_file file (pickle_dumps (metadata (base ds)))
  else ret tt.

Definition split_kwargs (s : Split) (a : Args) (tr : Transform)
    (precomputed : option Metadata) : UCF101_kwargs :=
  {| kw_root := dataset_root a;
     kw_annotation_path := annotation_path a;
     kw_precomputed_metadata := precomputed;
     kw_frames_per_clip := frames_per_clip a;
     kw_train := match s with Train => true | Val => false end;
     kw_output_format := "THWC";
     kw_num_workers := num_workers a;
     kw_transform := Some tr |}.

(** Lines 90 to 109 for the training split and 111 to 130 for the validation
    split: the same code up to the file name, the [train] flag and the
    transform. *)
Definition build_split (s : Split) (a : Args) (tr : Transform) : M MyUCF101 :=
  let* precomputed := load_precomputed_metadata (metadata_file s) in
  let* ds := MyUCF101_init None (split_kwargs s a tr precomputed) in
  save_metadata (metadata_file s) ds ;;
  ret ds.

(** ** main: samplers and loaders (lines 132 to 146) *)

(** [RandomSampler(data_source, num_samples=n)]; torch's constructor rejects
    a sample count that is not positive. *)
Definition RandomSampler_init (ds : MyUCF101) (n : Z) : result RandomSampler :=
  if n <=? 0
  then Err (ValueError "num_samples should be a positive integer value")
  else Ok {| data_source := ds; num_samples := n |}.

(** [DataLoader(dataset, batch_size, num_workers, shuffle, drop_last, sampler)];
    torch's constructor rejects a negative worker count, a sampler together
    with [shuffle], and a batch size that is not positive. *)
Definition DataLoader_init (ds : MyUCF101) (bs nw : Z) (shuf dl : bool)
    (smp : RandomSampler) : result DataLoader :=
  if nw <? 0 then Err (ValueError "num_workers option should be non-negative")
  else if shuf then Err (ValueError "sampler option is mutually exclusive with shuffle")
  else if bs <=? 0 then Err (ValueError "batch_size should be a positive integer value")
  else Ok {| dataset := ds; batch_size := bs; dl_num_workers := nw;
             shuffle := shuf; drop_last := dl; sampler := smp |}.

Definition build_loader (a : Args) (ds : MyUCF101) : result DataLoader :=
  rbind (RandomSampler_init ds (len ds / 10)) (fun smp =>
  DataLoader_init ds (arg_batch_size a) (num_workers a) false true smp).

Definition build_loaders (a : Args) (train_set val_set : MyUCF101)
    : result (DataLoader * DataLoader) :=
  rbind (build_loader a train_set) (fun train_dataloader =>
  rbind (build_loader a val_set) (fun val_dataloader =>
  Ok (train_dataloader, val_dataloader))).

(** The loader [main] configures for a split, when torch accepts it. *)
Definition loader_of (a : Args) (ds : MyUCF101) : DataLoader :=
  {| dataset := ds; batch_size := arg_batch_size a;
     dl_num_workers := num_workers a; shuffle := false; drop_last := true;
     sampler := {| data_source := ds; num_samples := len ds / 10 |} |}.

(** The number of batches of one pass over a loader: the sampler's draws
    cut into batches, the incomplete last one dropped under [drop_last]. *)
Definition num_batches (dl : DataLoader) : Z :=
  let n := num_samples (sampler dl) in
  if drop_last dl then n / batch_size dl
  else (n + batch_size dl - 1) / batch_size dl.

(** [next(iter(loader))] *)
Definition next_iter (dl : DataLoader) : M (Tensor * Tensor) :=
  if num_batches dl <=? 0 then raise StopIteration else load_first_batch dl.

(** ** main: model, training and checkpoint (lines 148 to 162) *)

(** [print(x.shape)] *)
Definition print_shape (s : list Z) : M unit :=
  fun w => (Ok tt, set_stdout (fun out => out ++ [s]) w).

Definition checkpoint_path : string := "./models/tubevit_ucf101.ckpt".

Definition model_kwargs (a : Args) (x : Tensor) : Model_kwargs :=
  {| mk_num_classes := num_classes a;
     mk_video_shape := drop 1 (shape x);
     mk_num_layers := 4;
     mk_num_heads := 12;
     mk_hidden_dim := 768;
     mk_mlp_dim := 3072;
     mk_lr := (1, -4);
     mk_weight_path := "tubevit_b_(a+iv)+(d+v)+(e+iv)+(f+v).pt" |}.

(** Lines 148 to 162: what [main] does once it has the two loaders. *)
Definition train_and_save (a : Args) (train_dataloader val_dataloader : DataLoader)
    : M unit :=
  let* (x, y) := next_iter train_dataloader in
  print_shape (shape x) ;;
  let* model := TubeViTLightningModule_init (model_kwargs a x) in
  let* trainer := Trainer_init (max_epochs a) "auto" (fast_dev_run a) in
  let* trainer := Trainer_fit trainer model train_dataloader val_dataloader in
  Trainer_save_checkpoint trainer checkpoint_path.

Definition video_size_value (a : Args) : pyval :=
  PTuple [PInt (video_size a).1; PInt (video_size a).2].

(** Lines 77 to 130: the seed, the two transform pipelines and the two
    dataset splits. *)
Definition build_datasets (a : Args) : M (MyUCF101 * MyUCF101) :=
  seed_everything (seed a) ;;
  let train_transform :=
    Compose [ToTensorVideo; RandomHorizontalFlipVideo;
             RandomResizedCropVideo (video_size_value a)] in
  let* resized := lift (ResizedVideo_init (video_size_value a)
                          default_interpolation_mode) in
  let test_transform := Compose [ToTensorVideo; ResizedVideo_transform resized] in
  let* train_set := build_split Train a train_transform in
  let* val_set := build_split Val a test_transform in
  ret (train_set, val_set).

(** The body of [main]: datasets, loaders, training. *)
Definition main (a : Args) : M unit :=
  let* (train_set, val_set) := build_datasets a in
  let* (train_dataloader, val_dataloader) :=
    lift (build_loaders a train_set val_set) in
  train_and_save a train_dataloader val_dataloader.

(** ** The command line (lines 64 to 74) *)

#[warnings="-register-all"]
Inductive ParamType : Type :=
  | PathT (must_exist : bool)      (* click.Path(exists=...) *)
  | IntT                           (* int *)
  | BoolT                          (* bool *)
  | TupleT (items : list ParamType).  (* click.Tuple([...]) *)

Record ClickOption : Type := {
  opt_decls : list string;
  opt_name : string;
  opt_type : ParamType;
  opt_required : bool;
  opt_default : option pyval;
  opt_is_flag : bool;
}.

(** The ten [@click.option] decorators, top to bottom. *)
Definition options : list ClickOption :=
  [ {| opt_decls := ["-r"; "--dataset-root"]; opt_name := "dataset_root";
       opt_type := PathT true; opt_required := true; opt_default := None;
       opt_is_flag := false |};
    {| opt_decls := ["-a"; "--annotation-path"]; opt_name := "annotation_path";
       opt_type := PathT true; opt_required := true; opt_default := None;
       opt_is_flag := false |};
    {| opt_decls := ["-nc"; "--num-classes"]; opt_name := "num_classes";
       opt_type := IntT; opt_required := false; opt_default := Some (PInt 101);
       opt_is_flag := false |};
    {| opt_decls := ["-b"; "--batch-size"]; opt_name := "batch_size";
       opt_type := IntT; opt_required := false; opt_default := Some (PInt 32);
       opt_is_flag := false |};
    {| opt_decls := ["-f"; "--frames-per-clip"]; opt_name := "frames_per_clip";
       opt_type := IntT; opt_required := false; opt_default := Some (PInt 32);
       opt_is_flag := false |};
    {| opt_decls := ["-v"; "--video-size"]; opt_name := "video_size";
       opt_type := TupleT [IntT; IntT]; opt_required := false;
       opt_default := Some (PTuple [PInt 224; PInt 224]); opt_is_flag := false |};
    {| opt_decls := ["--max-epochs"]; opt_name := "max_epochs";
       opt_type := IntT; opt_required := false; opt_default := Some (PInt 5);
       opt_is_flag := false |};
    {| opt_decls := ["--num-workers"]; opt_name := "num_workers";
       opt_type := IntT; opt_required := false; opt_default := Some (PInt 0);
       opt_is_flag := false |};
    {| opt_decls := ["--fast-dev-run"]; opt_name := "fast_dev_run";
       opt_type := BoolT; opt_required := false; opt_default := Some (PBool false);
       opt_is_flag := true |};
    {| opt_decls := ["--seed"]; opt_name := "seed";
       opt_type := IntT; opt_required := false; opt_default := Some (PInt 42);
       opt_is_flag := false |} ].

(** A parsed command line: for each option given, its parameter name and
    the words that follow it (none for a flag). *)
Abbreviation CommandLine := (gmap string (list string)).

(** click's conversion of one word to a parameter type; a path that must
    exist is looked up in the file system. *)
Definition convert_word (name : string) (ty : ParamType) (word : string) : M pyval :=
  match ty with
  | PathT must_exist =>
      let* present := os_path_exists word in
      if must_exist && negb present then raise (BadParameter name)
      else ret (PStr word)
  | IntT =>
      match py_int word with
      | Some z => ret (PInt z)
      | None => raise (BadParameter name)
      end
  | BoolT =>
      if bool_decide (word ∈ ["1"; "true"; "t"; "yes"; "y"; "on"]) then ret (PBool true)
      else if bool_decide (word ∈ ["0"; "false"; "f"; "no"; "n"; "off"])
      then ret (PBool false)
      else raise (BadParameter name)
  | TupleT _ => raise (BadParameter name)
  end.

Fixpoint convert_words (name : string) (tys : list ParamType) (words : list string)
    : M (list pyval) :=
  match tys, words with
  | [], [] => ret []
  | ty :: tys', word :: words' =>
      let* v := convert_word name ty word in
      let* vs := convert_words name tys' words' in
      ret (v :: vs)
  | _, _ => raise (BadParameter name)
  end.

Definition convert (name : string) (ty : ParamType) (words : list string) : M pyval :=
  match ty with
  | TupleT tys => let* vs := convert_words name tys words in ret (PTuple vs)
  | _ => match words with
         | [word] => convert_word name ty word
         | _ => raise (BadParameter name)
         end
  end.

(** The value click computes for one option: converted when given, the
    default when not, an error when a required option is missing. *)
Definition process_option (argv : CommandLine) (o : ClickOption) : M pyval :=
  match argv !! opt_name o with
  | Some words =>
      if opt_is_flag o
      then match words with
           | [] => ret (PBool true)
           | _ => raise (BadParameter (opt_name o))
           end
      else convert (opt_name o) (opt_type o) words
  | None =>
      if opt_required o then raise (MissingParameter (opt_name o))
      else ret (default PNone (opt_default o))
  end.

Fixpoint process_options (argv : CommandLine) (os : list ClickOption)
    : M (list pyval) :=
  match os with
  | [] => ret []
  | o :: os' =>
      let* v := process_option argv o in
      let* vs := process_options argv os' in
      ret (v :: vs)
  end.

(** The call of [main] with the values of the ten options. *)
Definition invoke_main (values : list pyval) : M unit :=
  match values with
  | [PStr root; PStr annotation; PInt nc; PInt bs; PInt frames;
     PTuple [PInt height; PInt width]; PInt epochs; PInt workers;
     PBool fast; PInt sd] =>
      main {| dataset_root := root; annotation_path := annotation;
              num_classes := nc; arg_batch_size := bs; frames_per_clip := frames;
              video_size := (height, width); max_epochs := epochs;
              num_workers := workers; fast_dev_run := fast; seed := sd |}
  | _ => raise TypeError
  end.

(** click's usage errors: raised while the command line is processed. *)
Definition is_usage_error (e : exn) : bool :=
  match e with
  | MissingParameter _ | BadParameter _ => true
  | _ => false
  end.

Definition required_paths : list string := ["dataset_root"; "annotation_path"].

(** Processing the command line only reads the world, and fails with usage
    errors only. *)
Definition parses {A} (c : M A) : Prop :=
  ∀ w, ∃ r, c w = (r, w) ∧
            match r with Ok _ => True | Err e => is_usage_error e = true end.

(** The click command: all options are processed, then [main] runs. *)
Definition command (argv : CommandLine) : M unit :=
  let* values := process_options argv options in
  invoke_main values.

End Script.

(** ** What the script relies on from the libraries *)

Section Contracts.
Context `{Externals}.

(** The (height, width) a [size] argument asks for: an integer stands for
    both, a pair of integers for itself. *)
Definition target_size (size : pyval) : option (Z * Z) :=
  match size with
  | PInt n => Some (n, n)
  | PTuple [PInt height; PInt width] => Some (height, width)
  | _ => None
  end.

(** The label the dataset records for a video: the second component of
    [samples[indices[video_idx]]]. *)
Definition recorded_label (b : UCF101) (video_idx : Z) : result Z :=
  rbind (py_index (indices b) video_idx) (fun sample_idx =>
  rbind (py_index (samples b) sample_idx) (fun sample => Ok sample.2)).

(** The same dataset with another [transform] configured. *)
Definition with_transform (b : UCF101) (tr : option Transform) : UCF101 :=
  {| video_clips_get_clip := video_clips_get_clip b;
     video_clips_num_clips := video_clips_num_clips b;
     samples := samples b;
     indices := indices b;
     transform := tr;
     metadata := metadata b |}.

(** torchvision's [resize] keeps the leading two dimensions of a 4-D clip
    and gives the last two the requested (height, width). *)
Definition resize_contract : Prop :=
  ∀ clip c t h w h' w' mode out,
    shape clip = [c; t; h; w] →
    resize clip (PTuple [PInt h'; PInt w']) mode = Ok out →
    shape out = [c; t; h'; w'].

(** The dataset constructor only reads the file system, and with
    precomputed metadata it does not scan the videos. *)
Definition UCF101_init_contract : Prop :=
  (∀ kw w r w', UCF101_init kw w = (r, w') → fs w' = fs w) ∧
  (∀ kw m w r w',
     kw_precomputed_metadata kw = Some m →
     UCF101_init kw w = (r, w') → index_scans w' = index_scans w).

(** A computation that runs no training and no validation step. *)
Definition no_steps {A} (c : M A) : Prop :=
  ∀ w r w', c w = (r, w') →
    train_steps w' = train_steps w ∧ val_steps w' = val_steps w.

(** Seeding and dataset construction do no training. *)
Definition data_no_steps : Prop :=
  (∀ s, no_steps (seed_everything s)) ∧ (∀ kw, no_steps (UCF101_init kw)).

(** A computation that returns, from every world. *)
Definition succeeds {A} (c : M A) : Prop :=
  ∀ w, ∃ a w', c w = (Ok a, w').

(** The model and trainer side of a fast-dev run: the model and the trainer
    can be built, a trainer built with [fast_dev_run=True] fits one
    training and one validation batch, and saving a checkpoint leaves a
    file at the path given. *)
Record training_contract : Prop := {
  model_ok : ∀ kw, succeeds (TubeViTLightningModule_init kw);
  model_steps : ∀ kw, no_steps (TubeViTLightningModule_init kw);
  trainer_ok : ∀ epochs acc fast, succeeds (Trainer_init epochs acc fast);
  trainer_steps : ∀ epochs acc fast, no_steps (Trainer_init epochs acc fast);
  fit_fast : ∀ epochs acc w0 t w1 model tl vl w,
    Trainer_init epochs acc true w0 = (Ok t, w1) →
    0 < num_batches tl → 0 < num_batches vl →
    ∃ t' w', Trainer_fit t model tl vl w = (Ok t', w') ∧
             train_steps w' = S (train_steps w) ∧
             val_steps w' = S (val_steps w);
  save_ok : ∀ t path w, ∃ w',
    Trainer_save_checkpoint t path w = (Ok tt, w') ∧
    is_Some (fs w' !! path) ∧
    train_steps w' = train_steps w ∧ val_steps w' = val_steps w;
}.

End Contracts.

(** ** A small executable instance of the libraries

    Tensors are known by their shape only, a dataset split has a fixed
    number of clips, metadata is a list of bytes that pickles to itself.
    It shows that the contracts above can be met together, and lets the
    script run on concrete inputs. *)

Module Sim.

Definition types : ExternalTypes :=
  {| Tensor := list Z; Info := unit; Metadata := list Byte.byte;
     Model := list Z; Trainer := bool |}.
#[local] Existing Instance types.

Definition positive_dims (s : list Z) : bool := forallb (fun d => 0 <? d) s.

(** Resampling of a non-empty 4-D clip to a positive (height, width). *)
Definition resize_shape (clip : list Z) (size : pyval) (mode : string) : result (list Z) :=
  match clip, size with
  | [c; t; h; w], PTuple [PInt h'; PInt w'] =>
      if positive_dims [c; t; h; w; h'; w']
      then Ok [c; t; h'; w']
      else Err (LibraryError "Input and output sizes should be greater than 0")
  | _, _ => Err (LibraryError "resize: unsupported arguments")
  end.

(** (T, H, W, C) to (C, T, H, W) *)
Definition to_tensor_video : Transform :=
  fun clip => match clip with
              | [t; h; w; c] => ret [c; t; h; w]
              | _ => raise (LibraryError "clip should be a 4D tensor")
              end.

Definition scanned_metadata (train : bool) : list Byte.byte :=
  if train then [Byte.x01] else [Byte.x02].

Definition count_scan (w : World) : World :=
  mkWorld (fs w) (rng_seed w) (stdout w) (S (index_scans w)) (train_steps w) (val_steps w).

Definition count_steps (w : World) : World :=
  mkWorld (fs w) (rng_seed w) (stdout w) (index_scans w)
          (S (train_steps w)) (S (val_steps w)).

Definition set_seed (s : Z) (w : World) : World :=
  mkWorld (fs w) (Some s) (stdout w) (index_scans w) (train_steps w) (val_steps w).

(** Video [i] of a split has class [i mod 2]; clip [i] comes from video [i];
    frames are 240 by 320 RGB. *)
Definition synthetic (n : Z) (kw : UCF101_kwargs) (md : list Byte.byte) : UCF101 :=
  {| video_clips_get_clip := fun idx =>
       if (0 <=? idx) && (idx <? n)
       then ret ([kw_frames_per_clip kw; 240; 320; 3], [], tt, idx)
       else raise IndexError;
     video_clips_num_clips := n;
     samples := (fun i => ("video", i mod 2)) <$> seqZ 0 n;
     indices := seqZ 0 n;
     transform := kw_transform kw;
     metadata := md |}.

(** A dataset of [n_train] training clips and [n_val] validation clips
    under any existing root. *)
Definition synthetic_init (n_train n_val : Z) (kw : UCF101_kwargs) : M UCF101 :=
  fun w =>
    match fs w !! kw_root kw with
    | None => (Err (FileNotFoundError (kw_root kw)), w)
    | Some _ =>
        let n := if kw_train kw then n_train else n_val in
        match kw_precomputed_metadata kw with
        | Some md => (Ok (synthetic n kw md), w)
        | None => (Ok (synthetic n kw (scanned_metadata (kw_train kw))), count_scan w)
        end
    end.

(** The batch made of [batch_size] copies of sample 0. *)
Definition first_batch (dl : DataLoader) : M (list Z * list Z) :=
  let* (video, label) := MyUCF101_getitem (dataset dl) 0 in
  ret (batch_size dl :: video, [batch_size dl]).

Definition fit (t : bool) (model : list Z) (tl vl : DataLoader) : M bool :=
  fun w => if t then (Ok t, count_steps w)
           else (Err (LibraryError "full training is not simulated"), w).

(** Saving replaces whatever is at the path. *)
Definition save_checkpoint (t : bool) (path : string) : M unit :=
  fun w => (Ok tt, set_fs (insert path (File [Byte.x00])) w).

Definition digit_value (c : ascii) : option Z :=
  let n := Z.of_nat (Ascii.nat_of_ascii c) in
  if (48 <=? n) && (n <=? 57) then Some (n - 48) else None.

Fixpoint digits (s : string) (acc : Z) : option Z :=
  match s with
  | EmptyString => Some acc
  | String c s' =>
      match digit_value c with
      | Some d => digits s' (10 * acc + d)
      | None => None
      end
  end.

(** Decimal integers with an optional minus sign. *)
Definition parse_int (s : string) : option Z :=
  match s with
  | EmptyString => None
  | String "-"%char EmptyString => None
  | String "-"%char s' => Z.opp <$> digits s' 0
  | _ => digits s 0
  end.

Definition externals (n_train n_val : Z) : Externals :=
  {| shape := fun t : Tensor => t;
     resize := resize_shape;
     ToTensorVideo := to_tensor_video;
     RandomHorizontalFlipVideo := fun clip => ret clip;
     RandomResizedCropVideo := fun size clip => lift (resize_shape clip size "bilinear");
     pickle_loads := fun content => Ok content;
     pickle_dumps := fun md => md;
     UCF101_init := synthetic_init n_train n_val;
     seed_everything := fun s w => (Ok s, set_seed s w);
     load_first_batch := first_batch;
     TubeViTLightningModule_init := fun kw => ret (mk_video_shape kw);
     Trainer_init := fun epochs acc fast => ret fast;
     Trainer_fit := fit;
     Trainer_save_checkpoint := save_checkpoint;
     py_int := parse_int |}.

(** A working directory with a dataset root and an annotation directory,
    and no metadata cache yet. *)
Definition fresh_world : World :=
  mkWorld (<["data" := Dir]> (<["annotations" := Dir]> ∅)) None [] 0 0 0.

(** The command's defaults with the fast-validation flag, on a dataset of
    two classes. *)
Definition fast_dev_run_args : Args :=
  {| dataset_root := "data"; annotation_path := "annotations";
     num_classes := 2; arg_batch_size := 32; frames_per_clip := 32;
     video_size := (224, 224); max_epochs := 5; num_workers := 0;
     fast_dev_run := true; seed := 42 |}.

(** The same with [--batch-size 2]. *)
Definition small_batch_args : Args :=
  {| dataset_root := "data"; annotation_path := "annotations";
     num_classes := 2; arg_batch_size := 2; frames_per_clip := 32;
     video_size := (224, 224); max_epochs := 5; num_workers := 0;
     fast_dev_run := true; seed := 42 |}.

(** A world where the training cache was written by an earlier run. *)
Definition cached_world : World :=
  set_fs (insert "ucf101-train-meta.pickle" (File [Byte.x07])) fresh_world.

(** The training pipeline of [main] for 224 by 224 frames. *)
Definition train_transform : Transform :=
  Compose [to_tensor_video; (fun clip => ret clip);
           (fun clip => lift (resize_shape clip (PTuple [PInt 224; PInt 224]) "bilinear"))].

(** A split of 20 clips with no transform configured. *)
Definition plain_split : UCF101 :=
  synthetic 20
    {| kw_root := "data"; kw_annotation_path := "annotations";
       kw_precomputed_metadata := None; kw_frames_per_clip := 32;
       kw_train := true; kw_output_format := "THWC"; kw_num_workers := 0;
       kw_transform := None |} [].

Definition plain_set : MyUCF101 :=
  {| base := plain_split; frame_transform := None |}.

(** The same split with an audio track on every clip. *)
Definition sound_set : MyUCF101 :=
  {| base :=
       {| video_clips_get_clip := fun idx =>
            if (0 <=? idx) && (idx <? 20)
            then ret ([32; 240; 320; 3], [2; 44100], tt, idx)
            else raise IndexError;
          video_clips_num_clips := 20;
          samples := samples plain_split;
          indices := indices plain_split;
          transform := None;
          metadata := [] |};
     frame_transform := None |}.

(** The training split and the world after a first run has built it. *)
Definition first_set : MyUCF101 :=
  {| base := synthetic 20 (split_kwargs Train fast_dev_run_args train_transform None)
               (scanned_metadata true);
     frame_transform := None |}.

Definition first_world : World :=
  set_fs (insert "ucf101-train-meta.pickle" (File [Byte.x01])) (count_scan fresh_world).

(** The two splits and the world after lines 77 to 130 have run from the
    fresh world. *)
Definition datasets_run (a : Args) : result (MyUCF101 * MyUCF101) * World :=
  @build_datasets types (externals 20 20) a fresh_world.

Definition built_train (a : Args) : MyUCF101 :=
  match (datasets_run a).1 with Ok (train_set, _) => train_set | Err _ => plain_set end.

Definition built_val (a : Args) : MyUCF101 :=
  match (datasets_run a).1 with Ok (_, val_set) => val_set | Err _ => plain_set end.

Definition built_world (a : Args) : World := (datasets_run a).2.

(** A command line: the two paths, two classes, batch size 2 and the
    fast-validation flag. *)
Definition small_batch_argv : gmap string (list string) :=
  <["dataset_root" := ["data"]]> (<["annotation_path" := ["annotations"]]>
  (<["num_classes" := ["2"]]> (<["batch_size" := ["2"]]>
  (<["fast_dev_run" := []]> ∅)))).

End Sim.

(** ** ResizedVideo.__repr__ (lines 42 to 46) *)

Section Repr.
(** [repr] of a Python string, with its quotes and escapes. *)
Variable str_repr : string → string.

(** [str(n)] of an integer: decimal, with a minus sign when negative. *)
Definition py_str_int (z : Z) : string :=
  DecimalString.NilZero.string_of_int (Z.to_int z).

(** [repr(v)]; a tuple of one item keeps its trailing comma. *)
Fixpoint py_repr (v : pyval) : string :=
  match v with
  | PNone => "None"
  | PBool true => "True"
  | PBool false => "False"
  | PInt z => py_str_int z
  | PStr s => str_repr s
  | PTuple items =>
      match items with
      | [item] => "(" +:+ py_repr item +:+ ",)"
      | _ => "(" +:+ String.concat ", " (map py_repr items) +:+ ")"
      end
  | PList items => "[" +:+ String.concat ", " (map py_repr items) +:+ "]"
  end.

(** [ResizedVideo.__repr__()]: the class name, then the stored size and
    the mode as [str.format] prints them. *)
Definition ResizedVideo_repr (self : ResizedVideo) : string :=
  "ResizedVideo" +:+
  ("(size=" +:+ py_repr (rv_size self) +:+
   ", interpolation_mode=" +:+ rv_interpolation_mode self +:+ ")").

End Repr.

(** The characters of a decimal integer. *)
Definition is_number_char (c : ascii) : bool :=
  let n := Ascii.nat_of_ascii c in
  ((48 <=? n)%nat && (n <=? 57)%nat) || (n =? 45)%nat.

Fixpoint number_text (s : string) : bool :=
  match s with
  | EmptyString => true
  | String c s' => is_number_char c && number_text s'
  end.

(** ** Further contracts and notions used in the statements *)

Section MoreContracts.
Context `{Externals}.

(** What is pickled unpickles to itself. *)
Definition pickle_roundtrip : Prop :=
  ∀ md, pickle_loads (pickle_dumps md) = Ok md.

(** Seeding the generators neither touches the file system nor scans. *)
Definition seed_contract : Prop :=
  ∀ s w r w', seed_everything s w = (r, w') →
    fs w' = fs w ∧ index_scans w' = index_scans w.

(** What [__getitem__] keeps of a clip lookup: the frames and the index of
    the source video, or the exception, and the world it leaves. *)
Definition clip_view (r : result (Tensor * Tensor * Info * Z) * World)
    : result (Tensor * Z) * World :=
  match r with
  | (Ok (video, _, _, video_idx), w) => (Ok (video, video_idx), w)
  | (Err e, w) => (Err e, w)
  end.

(** What a command line says about one parameter of [main]. *)
Definition path_given (argv : gmap string (list string)) (w : World)
    (name path : string) : Prop :=
  argv !! name = Some [path] ∧ is_Some (fs w !! path).

Definition int_given (argv : gmap string (list string)) (name : string)
    (dflt z : Z) : Prop :=
  match argv !! name with
  | None => z = dflt
  | Some [word] => py_int word = Some z
  | Some _ => False
  end.

Definition size_given (argv : gmap string (list string)) (name : string)
    (dflt size : Z * Z) : Prop :=
  match argv !! name with
  | None => size = dflt
  | Some [height; width] =>
      py_int height = Some size.1 ∧ py_int width = Some size.2
  | Some _ => False
  end.

Definition flag_given (argv : gmap string (list string)) (name : string)
    (b : bool) : Prop :=
  match argv !! name with
  | None => b = false
  | Some [] => b = true
  | Some _ => False
  end.

(** The arguments a command line stands for: the two paths as given, when
    they exist; every other parameter as given, or its default. *)
Definition parsed (argv : gmap string (list string)) (w : World) (a : Args) : Prop :=
  path_given argv w "dataset_root" (dataset_root a) ∧
  path_given argv w "annotation_path" (annotation_path a) ∧
  int_given argv "num_classes" 101 (num_classes a) ∧
  int_given argv "batch_size" 32 (arg_batch_size a) ∧
  int_given argv "frames_per_clip" 32 (frames_per_clip a) ∧
  size_given argv "video_size" (224, 224) (video_size a) ∧
  int_given argv "max_epochs" 5 (max_epochs a) ∧
  int_given argv "num_workers" 0 (num_workers a) ∧
  flag_given argv "fast_dev_run" (fast_dev_run a) ∧
  int_given argv "seed" 42 (seed a).

End MoreContracts.

(** * Verification *)

(** ** The monad of the script *)

Section MonadProofs.

Lemma bind_eq {A B} (c : M A) (k : A → M B) w r w' :
  c w = (r, w') →
  bind c k w = match r with Ok a => k a w' | Err e => (Err e, w') end.
Proof. intros Hc. unfold bind. rewrite Hc. reflexivity. Qed.

Lemma bind_lift_ok {A B} (r : result A) (k : A → M B) a w :
  r = Ok a → bind (lift r) k w = k a w.
Proof. intros ->. reflexivity. Qed.

Lemma bind_ok_inv {A B} (c : M A) (k : A → M B) w b w' :
  bind c k w = (Ok b, w') →
  ∃ a w1, c w = (Ok a, w1) ∧ k a w1 = (Ok b, w').
Proof.
  unfold bind. destruct (c w) as [[a|e] w1]; [eauto|discriminate].
Qed.

Lemma no_steps_bind {A B} (c : M A) (k : A → M B) :
  no_steps c → (∀ a, no_steps (k a)) → no_steps (bind c k).
Proof.
  intros Hc Hk w r w'. unfold bind.
  destruct (c w) as [[a|e] w1] eqn:Hcw.
  - intros Hkw. destruct (Hc _ _ _ Hcw), (Hk _ _ _ _ Hkw). lia.
  - intros [= <- <-]. exact (Hc _ _ _ Hcw).
Qed.

Lemma no_steps_pure {A} (r : result A) : no_steps (lift r).
Proof. intros w r' w' [= <- <-]. done. Qed.

Lemma no_steps_ret {A} (a : A) : no_steps (ret a).
Proof. intros w r' w' [= <- <-]. done. Qed.

Lemma no_steps_os_path_exists path : no_steps (os_path_exists path).
Proof. intros w r' w' [= <- <-]. done. Qed.

Lemma no_steps_read_file path : no_steps (read_file path).
Proof.
  intros w r w'. unfold read_file.
  destruct (fs w !! path) as [[|]|]; intros [= <- <-]; done.
Qed.

Lemma no_steps_write_file path content : no_steps (write_file path content).
Proof.
  intros w r w'. unfold write_file.
  destruct (fs w !! path) as [[|]|]; intros [= <- <-]; done.
Qed.

Lemma no_steps_print_shape s : no_steps (print_shape s).
Proof. intros w r w' [= <- <-]. done. Qed.

End MonadProofs.

Create HintDb steps.
#[export] Hint Resolve no_steps_pure no_steps_ret no_steps_os_path_exists
  no_steps_read_file no_steps_write_file no_steps_print_shape : steps.

(** ** ResizedVideo *)

Section ResizedVideoProofs.
Context `{Externals}.

Lemma ResizedVideo_init_target size height width mode :
  target_size size = Some (height, width) →
  ResizedVideo_init size mode =
    Ok {| rv_size := PTuple [PInt height; PInt width];
          rv_interpolation_mode := mode |}.
Proof.
  destruct size as [| | n | | items | ]; try discriminate.
  - intros [= <- <-]. reflexivity.
  - destruct items as [|[] [|[] [|]]]; try discriminate.
    intros [= <- <-]. reflexivity.
Qed.

(** C1. Under torchvision's shape contract for [resize], a transform built
    for a target (height, width), given as one integer or as a pair, maps
    every 4-D clip of shape (C, T, H, W) that [resize] accepts to a tensor
    of shape (C, T, height, width): same rank, C and T unchanged. *)
Theorem ResizedVideo_call_shape :
  resize_contract →
  ∀ size height width mode clip c t h w,
    target_size size = Some (height, width) →
    shape clip = [c; t; h; w] →
    is_ok (resize clip (PTuple [PInt height; PInt width]) mode) = true →
    ∃ self out,
      ResizedVideo_init size mode = Ok self ∧
      ResizedVideo_call self clip = Ok out ∧
      shape out = [c; t; height; width] ∧
      length (shape out) = length (shape clip).
Proof.
  intros Hresize size height width mode clip c t h w Hsize Hclip Hok.
  rewrite (ResizedVideo_init_target _ _ _ mode Hsize).
  unfold ResizedVideo_call; cbn [rv_size rv_interpolation_mode].
  destruct (resize clip _ mode) as [out|e] eqn:Hout; [|discriminate].
  exists {| rv_size := PTuple [PInt height; PInt width];
            rv_interpolation_mode := mode |}, out.
  pose proof (Hresize _ _ _ _ _ _ _ _ _ Hclip Hout) as Hshape.
  repeat split; [exact Hout | exact Hshape |].
  rewrite Hshape, Hclip. reflexivity.
Qed.

(** C4. The transform built from the integer [n] is the transform built
    from the pair [(n, n)]: both store the size [(n, n)], so they agree on
    every clip. *)
Theorem ResizedVideo_init_int_tuple (n : Z) (mode : string) :
  ResizedVideo_init (PInt n) mode = ResizedVideo_init (PTuple [PInt n; PInt n]) mode ∧
  ResizedVideo_init (PInt n) mode =
    Ok {| rv_size := PTuple [PInt n; PInt n]; rv_interpolation_mode := mode |} ∧
  ∀ a b, ResizedVideo_init (PInt n) mode = Ok a →
         ResizedVideo_init (PTuple [PInt n; PInt n]) mode = Ok b →
         ∀ clip, ResizedVideo_call a clip = ResizedVideo_call b clip.
Proof.
  repeat split.
  intros a b [= <-] [= <-] clip. reflexivity.
Qed.

(** C5. A tuple whose length is not 2 makes the constructor fail on its
    assertion; whatever would use the transform afterwards, a resize
    included, is never reached and the world is untouched. *)
Theorem ResizedVideo_init_bad_tuple (items : list pyval) (mode : string) :
  length items ≠ 2%nat →
  ResizedVideo_init (PTuple items) mode =
    Err (AssertionError "size should be tuple (height, width)") ∧
  ∀ (B : Type) (k : ResizedVideo → M B) (w : World),
    (let* self := lift (ResizedVideo_init (PTuple items) mode) in k self) w =
    (Err (AssertionError "size should be tuple (height, width)"), w).
Proof.
  intros Hlen.
  assert (Hinit : ResizedVideo_init (PTuple items) mode =
                  Err (AssertionError "size should be tuple (height, width)")).
  { unfold ResizedVideo_init. rewrite bool_decide_eq_false_2; done. }
  split; [exact Hinit|].
  intros B k w. unfold bind, lift. rewrite Hinit. reflexivity.
Qed.

(** C10. The constructor fails exactly on tuples whose length is not 2.
    Any other value that is not a tuple, a list such as [224, 224]
    included, is not checked and is stored as the pair (size, size). *)
Theorem ResizedVideo_init_error_iff (size : pyval) (mode : string) :
  ((∃ e, ResizedVideo_init size mode = Err e) ↔
   (∃ items, size = PTuple items ∧ length items ≠ 2%nat)) ∧
  (isinstance_tuple size = false →
   ResizedVideo_init size mode =
     Ok {| rv_size := PTuple [size; size]; rv_interpolation_mode := mode |}) ∧
  ResizedVideo_init (PList [PInt 224; PInt 224]) mode =
    Ok {| rv_size := PTuple [PList [PInt 224; PInt 224]; PList [PInt 224; PInt 224]];
          rv_interpolation_mode := mode |}.
Proof.
  split; [split|split].
  - intros [e He]. destruct size; try discriminate.
    exists items. split; [reflexivity|].
    intros Hlen. unfold ResizedVideo_init in He.
    rewrite bool_decide_eq_true_2 in He by exact Hlen. discriminate.
  - intros (items & -> & Hlen). eexists.
    unfold ResizedVideo_init. rewrite bool_decide_eq_false_2 by exact Hlen.
    reflexivity.
  - destruct size; try reflexivity. discriminate.
  - reflexivity.
Qed.

End ResizedVideoProofs.

(** ** MyUCF101 *)

Section MyUCF101Proofs.
Context `{ExternalTypes}.

Lemma recorded_label_inv b video_idx label :
  recorded_label b video_idx = Ok label →
  ∃ sample_idx sample,
    py_index (indices b) video_idx = Ok sample_idx ∧
    py_index (samples b) sample_idx = Ok sample ∧
    sample.2 = label.
Proof.
  unfold recorded_label, rbind.
  destruct (py_index (indices b) video_idx) as [i|]; [|discriminate].
  destruct (py_index (samples b) i) as [s|] eqn:Hs; [|discriminate].
  intros [= <-]. exists i, s. auto.
Qed.

(** C2. When the clip index is in range (the clip is found and its video
    has a recorded label), index access returns the clip, transformed when
    a transform is configured, paired with that recorded label; so every
    returned pair carries the recorded label, whatever the transform. *)
Theorem MyUCF101_getitem_label
    (b : UCF101) (ft tr : option Transform) (idx : Z) (w w1 : World)
    (video audio : Tensor) (info : Info) (video_idx label : Z) :
  video_clips_get_clip b idx w = (Ok (video, audio, info, video_idx), w1) →
  recorded_label b video_idx = Ok label →
  MyUCF101_getitem {| base := with_transform b tr; frame_transform := ft |} idx w =
    match tr with
    | None => (Ok (video, label), w1)
    | Some t => match t video w1 with
                | (Ok video', w2) => (Ok (video', label), w2)
                | (Err e, w2) => (Err e, w2)
                end
    end
  ∧ ∀ video' label' w',
      MyUCF101_getitem {| base := with_transform b tr; frame_transform := ft |} idx w
        = (Ok (video', label'), w') →
      label' = label.
Proof.
  intros Hclip Hlabel.
  destruct (recorded_label_inv _ _ _ Hlabel) as (i & s & Hi & Hs & Hl).
  assert (Heq : MyUCF101_getitem
                  {| base := with_transform b tr; frame_transform := ft |} idx w =
                match tr with
                | None => (Ok (video, label), w1)
                | Some t => match t video w1 with
                            | (Ok video', w2) => (Ok (video', label), w2)
                            | (Err e, w2) => (Err e, w2)
                            end
                end).
  { unfold MyUCF101_getitem; cbn [base with_transform video_clips_get_clip
                                   indices samples transform].
    rewrite (bind_eq _ _ _ _ _ Hclip).
    rewrite (bind_lift_ok _ _ _ _ Hi), (bind_lift_ok _ _ _ _ Hs), Hl.
    destruct tr as [t|]; [|reflexivity].
    unfold bind. destruct (t video w1) as [[video'|e] w2]; reflexivity. }
  split; [exact Heq|].
  intros video' label' w' Hret. rewrite Heq in Hret.
  destruct tr as [t|].
  - destruct (t video w1) as [[v|e] w2]; congruence.
  - congruence.
Qed.

End MyUCF101Proofs.

Section MyUCF101InitProofs.
Context `{Externals}.

(** C9. [frame_transform] is stored and never read: for any two values of
    the constructor argument, None included, index access returns the same
    result, on the same underlying dataset and through the constructor. *)
Theorem MyUCF101_getitem_frame_transform
    (ft1 ft2 : option Transform) (idx : Z) (w : World) :
  (∀ b : UCF101,
     MyUCF101_getitem {| base := b; frame_transform := ft1 |} idx w =
     MyUCF101_getitem {| base := b; frame_transform := ft2 |} idx w) ∧
  (∀ kw : UCF101_kwargs,
     (let* ds := MyUCF101_init ft1 kw in MyUCF101_getitem ds idx) w =
     (let* ds := MyUCF101_init ft2 kw in MyUCF101_getitem ds idx) w).
Proof.
  split; [reflexivity|].
  intros kw. unfold MyUCF101_init, bind, ret.
  destruct (UCF101_init kw w) as [[b|e] w1]; reflexivity.
Qed.

End MyUCF101InitProofs.

(** ** The metadata cache *)

Section CacheProofs.
Context `{Externals}.

Lemma load_precomputed_metadata_absent file w :
  fs w !! file = None →
  load_precomputed_metadata file w = (Ok None, w).
Proof.
  intros Habsent.
  unfold load_precomputed_metadata, bind, os_path_exists.
  rewrite bool_decide_eq_false_2; [reflexivity|].
  rewrite Habsent. apply is_Some_None.
Qed.

Lemma load_precomputed_metadata_present file content md w :
  fs w !! file = Some (File content) →
  pickle_loads content = Ok md →
  load_precomputed_metadata file w = (Ok (Some md), w).
Proof.
  intros Hfile Hloads.
  unfold load_precomputed_metadata, bind, os_path_exists, read_file, lift.
  rewrite bool_decide_eq_true_2 by (rewrite Hfile; eauto).
  rewrite Hfile, Hloads. reflexivity.
Qed.

Lemma save_metadata_absent file ds w :
  fs w !! file = None →
  save_metadata file ds w =
    (Ok tt, set_fs (insert file (File (pickle_dumps (metadata (base ds))))) w).
Proof.
  intros Habsent.
  unfold save_metadata, bind, os_path_exists, write_file.
  rewrite bool_decide_eq_false_2 by (rewrite Habsent; apply is_Some_None).
  cbn. rewrite Habsent. reflexivity.
Qed.

Lemma save_metadata_present file ds w :
  is_Some (fs w !! file) →
  save_metadata file ds w = (Ok tt, w).
Proof.
  intros Hpresent.
  unfold save_metadata, bind, os_path_exists.
  rewrite bool_decide_eq_true_2 by exact Hpresent. reflexivity.
Qed.

Lemma MyUCF101_init_eq ft kw w :
  MyUCF101_init ft kw w =
    match UCF101_init kw w with
    | (Ok b, w1) => (Ok {| base := b; frame_transform := ft |}, w1)
    | (Err e, w1) => (Err e, w1)
    end.
Proof. reflexivity. Qed.

(** With the cache absent the split is built without precomputed metadata
    and, when the constructor returns, its metadata is written. *)
Lemma build_split_absent s a tr w :
  UCF101_init_contract →
  fs w !! metadata_file s = None →
  build_split s a tr w =
    match UCF101_init (split_kwargs s a tr None) w with
    | (Ok b, w1) =>
        (Ok {| base := b; frame_transform := None |},
         set_fs (insert (metadata_file s) (File (pickle_dumps (metadata b)))) w1)
    | (Err e, w1) => (Err e, w1)
    end.
Proof.
  intros [Hfs _] Habsent.
  unfold build_split.
  rewrite (bind_eq _ _ _ _ _ (load_precomputed_metadata_absent _ _ Habsent)).
  unfold bind at 1. rewrite MyUCF101_init_eq.
  destruct (UCF101_init (split_kwargs s a tr None) w) as [[b|e] w1] eqn:Hinit;
    [|reflexivity].
  assert (Habsent1 : fs w1 !! metadata_file s = None)
    by (rewrite (Hfs _ _ _ _ Hinit); exact Habsent).
  unfold bind. rewrite (save_metadata_absent _ _ _ Habsent1). reflexivity.
Qed.

(** With the cache present and readable the split is built from it, and
    nothing is written. *)
Lemma build_split_present s a tr w content md :
  UCF101_init_contract →
  fs w !! metadata_file s = Some (File content) →
  pickle_loads content = Ok md →
  build_split s a tr w = MyUCF101_init None (split_kwargs s a tr (Some md)) w.
Proof.
  intros [Hfs _] Hfile Hloads.
  unfold build_split.
  rewrite (bind_eq _ _ _ _ _ (load_precomputed_metadata_present _ _ _ _ Hfile Hloads)).
  unfold bind at 1. rewrite MyUCF101_init_eq.
  destruct (UCF101_init (split_kwargs s a tr (Some md)) w) as [[b|e] w1] eqn:Hinit;
    [|reflexivity].
  assert (Hpresent : is_Some (fs w1 !! metadata_file s))
    by (rewrite (Hfs _ _ _ _ Hinit), Hfile; eauto).
  unfold bind. rewrite (save_metadata_present _ _ _ Hpresent). reflexivity.
Qed.

(** C3. For each split, under the dataset constructor's contract (it only
    reads the file system and does not scan when given metadata): with the
    cache file absent, the constructor is called without precomputed
    metadata and, once it has returned the split, the split's pickled
    metadata is at the split's cache path; with a readable cache file, the
    constructor receives its deserialized content, no scan is counted and
    the file system is unchanged. *)
Theorem build_split_cache :
  UCF101_init_contract →
  ∀ (s : Split) (a : Args) (tr : Transform) (w : World),
    (fs w !! metadata_file s = None →
       build_split s a tr w =
         match UCF101_init (split_kwargs s a tr None) w with
         | (Ok b, w1) =>
             (Ok {| base := b; frame_transform := None |},
              set_fs (insert (metadata_file s) (File (pickle_dumps (metadata b)))) w1)
         | (Err e, w1) => (Err e, w1)
         end ∧
       ∀ ds w', build_split s a tr w = (Ok ds, w') →
         fs w' !! metadata_file s = Some (File (pickle_dumps (metadata (base ds))))) ∧
    (∀ content md,
       fs w !! metadata_file s = Some (File content) →
       pickle_loads content = Ok md →
       build_split s a tr w = MyUCF101_init None (split_kwargs s a tr (Some md)) w ∧
       ∀ r w', build_split s a tr w = (r, w') →
         index_scans w' = index_scans w ∧ fs w' = fs w).
Proof.
  intros Hcontract s a tr w. split.
  - intros Habsent.
    pose proof (build_split_absent s a tr w Hcontract Habsent) as Heq.
    split; [exact Heq|].
    intros ds w' Hret. rewrite Heq in Hret.
    destruct (UCF101_init (split_kwargs s a tr None) w) as [[b|e] w1];
      [|discriminate].
    injection Hret as <- <-. cbn. apply lookup_insert_eq.
  - intros content md Hfile Hloads.
    pose proof (build_split_present s a tr w content md Hcontract Hfile Hloads) as Heq.
    split; [exact Heq|].
    intros r w' Hret. rewrite Heq, MyUCF101_init_eq in Hret.
    destruct Hcontract as [Hfs Hscan].
    destruct (UCF101_init (split_kwargs s a tr (Some md)) w) as [[b|e] w1] eqn:Hinit;
      injection Hret as <- <-;
      (split; [exact (Hscan (split_kwargs s a tr (Some md)) md _ _ _ eq_refl Hinit)
             | exact (Hfs _ _ _ _ Hinit)]).
Qed.

(** Building one split leaves the other split's cache file as it was. *)
Lemma build_split_other_file s s' a tr w r w' :
  UCF101_init_contract →
  s ≠ s' →
  build_split s a tr w = (r, w') →
  fs w' !! metadata_file s' = fs w !! metadata_file s'.
Proof.
  intros [Hfs _] Hne.
  assert (Hfile : metadata_file s ≠ metadata_file s')
    by (destruct s, s'; try congruence; discriminate).
  unfold build_split, load_precomputed_metadata, save_metadata, MyUCF101_init,
    bind, os_path_exists, read_file, write_file, lift, ret.
  intros Hret.
  repeat case_match; simplify_eq/=;
    repeat match goal with
           | Hinit : UCF101_init _ _ = _ |- _ => apply Hfs in Hinit
           end;
    rewrite ?lookup_insert_ne by exact Hfile; congruence.
Qed.

End CacheProofs.

(** ** Samplers and loaders *)

Section LoaderProofs.
Context `{ExternalTypes}.

Lemma build_loader_inv a ds dl :
  build_loader a ds = Ok dl →
  dl = loader_of a ds ∧
  0 < len ds / 10 ∧ 0 < arg_batch_size a ∧ 0 ≤ num_workers a.
Proof.
  unfold build_loader, RandomSampler_init, DataLoader_init, rbind.
  destruct (len ds / 10 <=? 0) eqn:Hn; [discriminate|].
  destruct (num_workers a <? 0) eqn:Hw; [discriminate|].
  destruct (arg_batch_size a <=? 0) eqn:Hb; [discriminate|].
  intros [= <-]. repeat split; lia.
Qed.

Lemma build_loader_defined a ds :
  10 ≤ len ds → 0 < arg_batch_size a → 0 ≤ num_workers a →
  build_loader a ds = Ok (loader_of a ds).
Proof.
  intros Hlen Hb Hw.
  assert (0 < len ds / 10) by (apply Z.div_str_pos; lia).
  unfold build_loader, RandomSampler_init, DataLoader_init, rbind.
  destruct (len ds / 10 <=? 0) eqn:Hn; [lia|].
  destruct (num_workers a <? 0) eqn:Hw'; [lia|].
  destruct (arg_batch_size a <=? 0) eqn:Hb'; [lia|].
  reflexivity.
Qed.

Lemma build_loaders_inv a train_set val_set tl vl :
  build_loaders a train_set val_set = Ok (tl, vl) →
  build_loader a train_set = Ok tl ∧ build_loader a val_set = Ok vl.
Proof.
  unfold build_loaders, rbind.
  destruct (build_loader a train_set); [|discriminate].
  destruct (build_loader a val_set); [|discriminate].
  intros [= <- <-]. done.
Qed.

(** The loaders exist exactly when each split has ten clips or more, the
    batch size is positive and the worker count is not negative. *)
Lemma build_loaders_defined a train_set val_set :
  (∃ tl vl, build_loaders a train_set val_set = Ok (tl, vl)) ↔
  10 ≤ len train_set ∧ 10 ≤ len val_set ∧
  0 < arg_batch_size a ∧ 0 ≤ num_workers a.
Proof.
  split.
  - intros (tl & vl & Hret).
    destruct (build_loaders_inv _ _ _ _ _ Hret) as [Ht Hv].
    apply build_loader_inv in Ht as (_ & Ht & Hb & Hw).
    apply build_loader_inv in Hv as (_ & Hv & _).
    Z.to_euclidean_division_equations; lia.
  - intros (Ht & Hv & Hb & Hw). unfold build_loaders.
    rewrite (build_loader_defined _ _ Ht Hb Hw), (build_loader_defined _ _ Hv Hb Hw).
    cbn. eauto.
Qed.

(** C6. Whenever the two loaders are built, each split's sampler draws
    [len(split) // 10] samples per pass over its own split, and each
    loader has [drop_last] set, so a pass has [len(split) // 10 //
    batch_size] batches. *)
Theorem build_loaders_config (a : Args) (train_set val_set : MyUCF101)
    (tl vl : DataLoader) :
  build_loaders a train_set val_set = Ok (tl, vl) →
  (num_samples (sampler tl) = len train_set / 10 ∧
   data_source (sampler tl) = train_set ∧ dataset tl = train_set ∧
   drop_last tl = true ∧
   num_batches tl = len train_set / 10 / arg_batch_size a) ∧
  (num_samples (sampler vl) = len val_set / 10 ∧
   data_source (sampler vl) = val_set ∧ dataset vl = val_set ∧
   drop_last vl = true ∧
   num_batches vl = len val_set / 10 / arg_batch_size a).
Proof.
  intros Hret.
  destruct (build_loaders_inv _ _ _ _ _ Hret) as [Ht Hv].
  apply build_loader_inv in Ht as (-> & _).
  apply build_loader_inv in Hv as (-> & _).
  repeat split.
Qed.

End LoaderProofs.

(** ** The whole run *)

Section MainProofs.
Context `{Externals}.

Lemma no_steps_build_split s a tr :
  data_no_steps → no_steps (build_split s a tr).
Proof.
  intros [_ Hinit].
  unfold build_split, load_precomputed_metadata, save_metadata, MyUCF101_init.
  apply no_steps_bind.
  { apply no_steps_bind; [auto with steps|]. intros [|]; [|auto with steps].
    repeat (apply no_steps_bind; [auto with steps|intros ?]). auto with steps. }
  intros precomputed. apply no_steps_bind.
  { apply no_steps_bind; [apply Hinit|]. intros b. auto with steps. }
  intros ds. apply no_steps_bind; [|auto with steps].
  apply no_steps_bind; [auto with steps|]. intros [|]; cbn; auto with steps.
Qed.

Lemma no_steps_build_datasets a :
  data_no_steps → no_steps (build_datasets a).
Proof.
  intros Hdata. pose proof Hdata as [Hseed _].
  unfold build_datasets. cbv zeta.
  repeat first [ solve [auto using no_steps_build_split with steps]
               | apply no_steps_bind; [|intros ?] ].
Qed.

Lemma next_iter_ok_inv dl xy w w' :
  next_iter dl w = (Ok xy, w') → 0 < num_batches dl.
Proof.
  unfold next_iter. destruct (num_batches dl <=? 0) eqn:Hn; [discriminate|lia].
Qed.

(** A run that completes has drawn a full batch from the training split:
    the batch size is at most one tenth of the split's clip count. *)
Lemma main_needs_full_batch a w w' :
  main a w = (Ok tt, w') →
  ∃ train_set val_set w1,
    build_datasets a w = (Ok (train_set, val_set), w1) ∧
    0 < arg_batch_size a ≤ len train_set / 10.
Proof.
  unfold main. intros Hmain.
  apply bind_ok_inv in Hmain as ([train_set val_set] & w1 & Hdata & Hmain).
  apply bind_ok_inv in Hmain as ([tl vl] & w2 & Hloaders & Hmain).
  exists train_set, val_set, w1. split; [exact Hdata|].
  unfold lift in Hloaders. injection Hloaders as Hloaders <-.
  apply build_loaders_inv in Hloaders as [Ht _].
  apply build_loader_inv in Ht as (-> & Hpos & Hb & _).
  unfold train_and_save in Hmain.
  apply bind_ok_inv in Hmain as ([x y] & w3 & Hnext & _).
  apply next_iter_ok_inv in Hnext.
  unfold num_batches in Hnext; cbn in Hnext.
  split; [exact Hb|].
  destruct (Z_lt_le_dec (len train_set / 10) (arg_batch_size a)) as [Hlt|]; [|done].
  rewrite Z.div_small in Hnext; lia.
Qed.

(** C7, amended. With the fast-validation flag, once the two splits are
    built, when the batch size is positive and at most one tenth of each
    split's clip count and the worker count is not negative, the first
    training batch can be loaded and the model and trainer calls keep their
    contract, the run completes: it performs
    one training step and one validation step and leaves a checkpoint file
    at ./models/tubevit_ucf101.ckpt. *)
Theorem main_fast_dev_run_checkpoint :
  training_contract → data_no_steps →
  ∀ (a : Args) (w w1 : World) (train_set val_set : MyUCF101),
    fast_dev_run a = true →
    build_datasets a w = (Ok (train_set, val_set), w1) →
    0 < arg_batch_size a →
    arg_batch_size a ≤ len train_set / 10 →
    arg_batch_size a ≤ len val_set / 10 →
    0 ≤ num_workers a →
    succeeds (load_first_batch (loader_of a train_set)) →
    no_steps (load_first_batch (loader_of a train_set)) →
    ∃ w', main a w = (Ok tt, w') ∧
          is_Some (fs w' !! checkpoint_path) ∧
          train_steps w' = S (train_steps w) ∧
          val_steps w' = S (val_steps w).
Proof.
  intros Htrain Hdata a w w1 train_set val_set Hfast Hsets Hb Ht Hv Hw Hfb Hfbs.
  destruct (no_steps_build_datasets a Hdata _ _ _ Hsets) as [Hts1 Hvs1].
  assert (Hlt : 10 ≤ len train_set) by (Z.to_euclidean_division_equations; lia).
  assert (Hlv : 10 ≤ len val_set) by (Z.to_euclidean_division_equations; lia).
  set (tl := loader_of a train_set) in *.
  set (vl := loader_of a val_set).
  assert (Hloaders : build_loaders a train_set val_set = Ok (tl, vl)).
  { unfold build_loaders.
    rewrite (build_loader_defined _ _ Hlt Hb Hw), (build_loader_defined _ _ Hlv Hb Hw).
    reflexivity. }
  assert (Hnt : 0 < num_batches tl) by (apply Z.div_str_pos; cbn; lia).
  assert (Hnv : 0 < num_batches vl) by (apply Z.div_str_pos; cbn; lia).
  destruct (Hfb w1) as ([x y] & w2 & Hbatch).
  destruct (Hfbs _ _ _ Hbatch) as [Hts2 Hvs2].
  set (w3 := set_stdout (fun out => out ++ [shape x]) w2).
  destruct (model_ok Htrain (model_kwargs a x) w3) as (model & w4 & Hmodel).
  destruct (model_steps Htrain _ _ _ _ Hmodel) as [Hts4 Hvs4].
  destruct (trainer_ok Htrain (max_epochs a) "auto" true w4) as (t & w5 & Htrainer).
  destruct (trainer_steps Htrain _ _ _ _ _ _ Htrainer) as [Hts5 Hvs5].
  destruct (fit_fast Htrain _ _ _ _ _ model tl vl w5 Htrainer Hnt Hnv)
    as (t' & w6 & Hfit & Hts6 & Hvs6).
  destruct (save_ok Htrain t' checkpoint_path w6) as (w7 & Hsave & Hfile & Hts7 & Hvs7).
  exists w7. split; [|split; [exact Hfile|cbn in *; lia]].
  unfold main.
  rewrite (bind_eq _ _ _ _ _ Hsets); cbn beta iota.
  rewrite (bind_lift_ok _ _ _ _ Hloaders).
  unfold train_and_save, next_iter.
  destruct (num_batches tl <=? 0) eqn:Hn; [lia|].
  rewrite (bind_eq _ _ _ _ _ Hbatch); cbn beta iota.
  unfold bind at 1, print_shape. fold w3.
  rewrite (bind_eq _ _ _ _ _ Hmodel); cbn beta iota.
  rewrite Hfast, (bind_eq _ _ _ _ _ Htrainer); cbn beta iota.
  rewrite (bind_eq _ _ _ _ _ Hfit); cbn beta iota.
  exact Hsave.
Qed.

End MainProofs.

(** ** The command line *)

Section CommandProofs.
Context `{Externals}.

Lemma parses_ret {A} (a : A) : parses (ret a).
Proof. intros w. exists (Ok a). done. Qed.

Lemma parses_bad {A} name : parses (raise (A := A) (BadParameter name)).
Proof. intros w. exists (Err (BadParameter name)). done. Qed.

Lemma parses_missing {A} name : parses (raise (A := A) (MissingParameter name)).
Proof. intros w. exists (Err (MissingParameter name)). done. Qed.

Lemma parses_bind {A B} (c : M A) (k : A → M B) :
  parses c → (∀ a, parses (k a)) → parses (bind c k).
Proof.
  intros Hc Hk w. unfold bind.
  destruct (Hc w) as ([a|e] & -> & He).
  - apply Hk.
  - exists (Err e). done.
Qed.

Lemma parses_convert_word name ty word : parses (convert_word name ty word).
Proof.
  destruct ty; cbn.
  - apply parses_bind.
    + intros w. eexists. split; [reflexivity|done].
    + intros present. destruct (must_exist && negb present);
        [apply parses_bad | apply parses_ret].
  - destruct (py_int word); [apply parses_ret | apply parses_bad].
  - repeat case_bool_decide; first [apply parses_ret | apply parses_bad].
  - apply parses_bad.
Qed.

Lemma parses_convert_words name tys : ∀ words, parses (convert_words name tys words).
Proof.
  induction tys as [|ty tys IH]; intros [|word words]; cbn;
    try apply parses_ret; try apply parses_bad.
  apply parses_bind; [apply parses_convert_word|]. intros v.
  apply parses_bind; [apply IH|]. intros vs. apply parses_ret.
Qed.

Lemma parses_process_option argv o : parses (process_option argv o).
Proof.
  unfold process_option.
  destruct (argv !! opt_name o) as [words|].
  - destruct (opt_is_flag o).
    + destruct words; [apply parses_ret | apply parses_bad].
    + unfold convert. destruct (opt_type o);
        try (destruct words as [|word [|]];
             first [apply parses_bad | apply parses_convert_word]).
      apply parses_bind; [apply parses_convert_words|]. intros vs. apply parses_ret.
  - destruct (opt_required o); [apply parses_missing | apply parses_ret].
Qed.

Lemma parses_process_options argv os : parses (process_options argv os).
Proof.
  induction os as [|o os IH]; cbn; [apply parses_ret|].
  apply parses_bind; [apply parses_process_option|]. intros v.
  apply parses_bind; [apply IH|]. intros vs. apply parses_ret.
Qed.

(** One option that fails makes the whole command line fail. *)
Lemma process_options_fails argv os o e w :
  o ∈ os →
  process_option argv o w = (Err e, w) →
  ∃ e', process_options argv os w = (Err e', w) ∧ is_usage_error e' = true.
Proof.
  intros Hin. induction Hin as [o os|o o' os Hin IH]; intros Hfail; cbn.
  - destruct (parses_process_option argv o w) as (r & Hr & He).
    rewrite Hfail in Hr. injection Hr as <-.
    exists e. unfold bind. rewrite Hfail. done.
  - unfold bind.
    destruct (parses_process_option argv o' w) as ([v|e0] & -> & He0);
      [|exists e0; done].
    destruct (IH Hfail) as (e' & -> & He'). exists e'. done.
Qed.

(** A required path option fails unless it is given exactly one path and
    that path exists. *)
Lemma required_path_fails argv o w :
  opt_required o = true → opt_is_flag o = false → opt_type o = PathT true →
  (¬ ∃ path, argv !! opt_name o = Some [path] ∧ is_Some (fs w !! path)) →
  ∃ e, process_option argv o w = (Err e, w).
Proof.
  intros Hreq Hflag Hty Hbad. unfold process_option.
  rewrite Hreq, Hflag, Hty.
  destruct (argv !! opt_name o) as [[|path [|]]|] eqn:Hargv; cbn; eauto.
  unfold bind, os_path_exists.
  destruct (bool_decide (is_Some (fs w !! path))) eqn:Hex; cbn; eauto.
  apply bool_decide_eq_true in Hex. destruct Hbad. eauto.
Qed.

(** C8. Of the ten options exactly the dataset root and the annotation
    path are required, and each is a path that must exist; every other
    option has a default. When one of the two is missing or does not name
    an existing path, the command fails with a usage error and leaves the
    world as it was: no part of [main] has run. Given the two paths only,
    [main] runs with the eight defaults. *)
Theorem command_required_paths :
  Forall (fun o =>
            if opt_required o
            then opt_name o ∈ required_paths ∧ opt_type o = PathT true
            else (opt_name o ∉ required_paths) ∧ is_Some (opt_default o)) options ∧
  (∀ name, name ∈ required_paths →
           ∃ o, o ∈ options ∧ opt_name o = name ∧ opt_required o = true) ∧
  (∀ (argv : gmap string (list string)) (w : World) (name : string),
     name ∈ required_paths →
     (¬ ∃ path, argv !! name = Some [path] ∧ is_Some (fs w !! path)) →
     ∃ e, command argv w = (Err e, w) ∧ is_usage_error e = true) ∧
  (∀ (w : World) (root annotation : string),
     is_Some (fs w !! root) → is_Some (fs w !! annotation) →
     command (<["dataset_root" := [root]]> (<["annotation_path" := [annotation]]> ∅)) w =
     main {| dataset_root := root; annotation_path := annotation;
             num_classes := 101; arg_batch_size := 32; frames_per_clip := 32;
             video_size := (224, 224); max_epochs := 5; num_workers := 0;
             fast_dev_run := false; seed := 42 |} w).
Proof.
  split; [|split; [|split]]; cycle 3.
  { intros w root annotation Hroot Hann.
    unfold command, options, process_options, process_option; cbn.
    rewrite lookup_insert_eq, (lookup_insert_ne _ "dataset_root" "annotation_path"),
      lookup_insert_eq by done.
    rewrite !lookup_insert_ne, !lookup_empty by done.
    unfold bind, os_path_exists; cbn.
    rewrite (bool_decide_eq_true_2 _ Hroot); cbn.
    rewrite (bool_decide_eq_true_2 _ Hann); cbn. reflexivity. }
  - unfold options, required_paths.
    repeat (apply Forall_cons; split;
            [cbn; split;
             [first [ solve [repeat constructor]
                    | rewrite !not_elem_of_cons;
                      repeat split; first [discriminate | apply not_elem_of_nil] ]
             | eauto]|]).
    apply Forall_nil. done.
  - intros name Hname. unfold required_paths in Hname.
    apply elem_of_cons in Hname as [->|Hname];
      [|apply elem_of_cons in Hname as [->|Hname]; [|by apply elem_of_nil in Hname]];
      [ eexists; split; [by eapply (list_elem_of_lookup_2 _ 0%nat)|done]
      | eexists; split; [by eapply (list_elem_of_lookup_2 _ 1%nat)|done] ].
  - intros argv w name Hname Hbad.
    assert (Hopt : ∃ o, o ∈ options ∧ opt_name o = name ∧ opt_required o = true ∧
                        opt_is_flag o = false ∧ opt_type o = PathT true).
    { unfold required_paths in Hname.
      apply elem_of_cons in Hname as [->|Hname];
        [|apply elem_of_cons in Hname as [->|Hname]; [|by apply elem_of_nil in Hname]];
        [ eexists; split; [by eapply (list_elem_of_lookup_2 _ 0%nat)|done]
        | eexists; split; [by eapply (list_elem_of_lookup_2 _ 1%nat)|done] ]. }
    destruct Hopt as (o & Hin & <- & Hreq & Hflag & Hty).
    destruct (required_path_fails argv o w Hreq Hflag Hty Hbad) as (e & Hfail).
    destruct (process_options_fails argv options o e w Hin Hfail) as (e' & He' & Husage).
    exists e'. unfold command, bind. rewrite He'. done.
Qed.

End CommandProofs.

Section SmallSplits.
Context `{Externals}.

Lemma build_split_base s a tr w ds w' :
  build_split s a tr w = (Ok ds, w') →
  ∃ kw w0 w1,
    UCF101_init kw w0 = (Ok (base ds), w1) ∧
    kw_train kw = match s with Train => true | Val => false end.
Proof.
  unfold build_split. intros Hret.
  apply bind_ok_inv in Hret as (precomputed & w0 & _ & Hret).
  apply bind_ok_inv in Hret as (ds' & w1 & Hinit & Hret).
  apply bind_ok_inv in Hret as ([] & w2 & _ & Hret).
  injection Hret as <- <-.
  rewrite MyUCF101_init_eq in Hinit.
  destruct (UCF101_init _ w0) as [[b|e] w1'] eqn:Hb; [|discriminate].
  injection Hinit as <- <-.
  exists (split_kwargs s a tr precomputed), w0, w1'. split; [exact Hb|reflexivity].
Qed.

(** X10. Whatever the libraries do, a run cannot complete when one tenth of
    every training split the dataset constructor can return is below the
    batch size. *)
Lemma main_small_split_fails a w w' :
  (∀ kw w0 b w1,
     UCF101_init kw w0 = (Ok b, w1) → kw_train kw = true →
     video_clips_num_clips b / 10 < arg_batch_size a) →
  main a w ≠ (Ok tt, w').
Proof.
  intros Hsmall Hmain.
  apply main_needs_full_batch in Hmain as (train_set & val_set & w1 & Hsets & Hb).
  unfold build_datasets in Hsets.
  apply bind_ok_inv in Hsets as (sd & w2 & _ & Hsets).
  apply bind_ok_inv in Hsets as (resized & w3 & _ & Hsets).
  apply bind_ok_inv in Hsets as (ts & w4 & Htrain & Hsets).
  apply bind_ok_inv in Hsets as (vs & w5 & _ & Hsets).
  injection Hsets as <- <- <-.
  apply build_split_base in Htrain as (kw & w0 & w0' & Hinit & Hkw).
  specialize (Hsmall _ _ _ _ Hinit Hkw). unfold len in Hb. lia.
Qed.

End SmallSplits.

(** ** The executable instance meets the contracts *)

Lemma sim_resize_contract n_train n_val :
  @resize_contract Sim.types (Sim.externals n_train n_val).
Proof.
  intros clip c t h w h' w' mode out Hclip. cbn in Hclip |- *. subst clip.
  unfold Sim.resize_shape.
  destruct (Sim.positive_dims _); intros [= <-]; reflexivity.
Qed.

Lemma sim_UCF101_init_contract n_train n_val :
  @UCF101_init_contract Sim.types (Sim.externals n_train n_val).
Proof.
  split.
  - intros kw w r w'. cbn. unfold Sim.synthetic_init.
    repeat case_match; intros [= <- <-]; reflexivity.
  - intros kw md w r w' Hpre. cbn. unfold Sim.synthetic_init.
    rewrite Hpre. case_match; intros [= <- <-]; reflexivity.
Qed.

Lemma sim_data_no_steps n_train n_val :
  @data_no_steps Sim.types (Sim.externals n_train n_val).
Proof.
  split.
  - intros sd w r w' [= <- <-]. done.
  - intros kw w r w'. cbn. unfold Sim.synthetic_init.
    repeat case_match; intros [= <- <-]; done.
Qed.

Lemma sim_training_contract n_train n_val :
  @training_contract Sim.types (Sim.externals n_train n_val).
Proof.
  constructor.
  - intros kw w. by eexists _, _.
  - intros kw w r w' [= <- <-]. done.
  - intros epochs acc fast w. by eexists _, _.
  - intros epochs acc fast w r w' [= <- <-]. done.
  - intros epochs acc w0 t w1 model tl vl w [= <- <-] _ _.
    by eexists _, _.
  - intros t path w. eexists. split; [reflexivity|].
    cbn. rewrite lookup_insert_eq. eauto.
Qed.

(** ** The theorems at concrete inputs *)

(** A 240 by 320 clip of 32 RGB frames resized to 224 by 224. *)
Lemma ResizedVideo_call_shape_witness :
  ∃ self out,
    ResizedVideo_init (PInt 224) "bilinear" = Ok self ∧
    @ResizedVideo_call Sim.types (Sim.externals 20 20) self [3; 32; 240; 320] = Ok out ∧
    out = [3; 32; 224; 224] ∧
    length out = length [3; 32; 240; 320].
Proof.
  apply (ResizedVideo_call_shape (H0 := Sim.externals 20 20)
           (sim_resize_contract 20 20)
           (PInt 224) 224 224 "bilinear" [3; 32; 240; 320] 3 32 240 320);
    reflexivity.
Defined.

(** The 3-tuple (1, 2, 3) is refused. *)
Lemma ResizedVideo_init_bad_tuple_witness :
  ResizedVideo_init (PTuple [PInt 1; PInt 2; PInt 3]) "bilinear" =
    Err (AssertionError "size should be tuple (height, width)") ∧
  ∀ (B : Type) (k : ResizedVideo → M B) (w : World),
    (let* self := lift (ResizedVideo_init (PTuple [PInt 1; PInt 2; PInt 3]) "bilinear")
     in k self) w =
    (Err (AssertionError "size should be tuple (height, width)"), w).
Proof.
  apply (ResizedVideo_init_bad_tuple [PInt 1; PInt 2; PInt 3] "bilinear").
  cbn. lia.
Defined.

(** Clip 3 of a 20-clip split comes from video 3, of class 1, with or
    without the tensor conversion as transform. *)
Lemma MyUCF101_getitem_label_witness :
  (MyUCF101_getitem
     {| base := with_transform Sim.plain_split (Some Sim.to_tensor_video);
        frame_transform := None |} 3 Sim.fresh_world =
     (Ok ([3; 32; 240; 320], 1), Sim.fresh_world)) ∧
  ∀ video' label' w',
    MyUCF101_getitem
      {| base := with_transform Sim.plain_split (Some Sim.to_tensor_video);
         frame_transform := None |} 3 Sim.fresh_world = (Ok (video', label'), w') →
    label' = 1.
Proof.
  apply (MyUCF101_getitem_label (H := Sim.types) Sim.plain_split None
           (Some Sim.to_tensor_video) 3 Sim.fresh_world Sim.fresh_world
           [32; 240; 320; 3] [] tt 3 1); reflexivity.
Defined.

(** A first run writes the training cache after one scan; a run that finds
    a cache builds the split from it without scanning or writing. *)
Lemma build_split_cache_witness :
  (∃ ds w',
     @build_split Sim.types (Sim.externals 20 20) Train Sim.fast_dev_run_args
       Sim.train_transform Sim.fresh_world = (Ok ds, w') ∧
     fs w' !! "ucf101-train-meta.pickle" = Some (File [Byte.x01]) ∧
     index_scans w' = 1%nat) ∧
  (∃ ds w',
     @build_split Sim.types (Sim.externals 20 20) Train Sim.fast_dev_run_args
       Sim.train_transform Sim.cached_world = (Ok ds, w') ∧
     metadata (base ds) = [Byte.x07] ∧
     index_scans w' = 0%nat ∧
     fs w' = fs Sim.cached_world).
Proof.
  split.
  - destruct (build_split_cache (H0 := Sim.externals 20 20)
                (sim_UCF101_init_contract 20 20) Train Sim.fast_dev_run_args
                Sim.train_transform Sim.fresh_world) as [Habsent _].
    destruct Habsent as [Heq Hfile]; [vm_compute; reflexivity|].
    eexists _, _. split; [exact Heq|].
    split; [exact (Hfile _ _ Heq) | reflexivity].
  - destruct (build_split_cache (H0 := Sim.externals 20 20)
                (sim_UCF101_init_contract 20 20) Train Sim.fast_dev_run_args
                Sim.train_transform Sim.cached_world) as [_ Hpresent].
    destruct (Hpresent [Byte.x07] [Byte.x07]) as [Heq Hframe];
      [vm_compute; reflexivity | reflexivity |].
    eexists _, _. split; [exact Heq|].
    split; [reflexivity|]. exact (Hframe _ _ Heq).
Defined.

(** Two splits of 20 clips with batch size 2: two draws and one batch per
    pass. *)
Lemma build_loaders_config_witness :
  (num_samples (sampler (loader_of Sim.small_batch_args Sim.plain_set)) = 2 ∧
   drop_last (loader_of Sim.small_batch_args Sim.plain_set) = true ∧
   num_batches (loader_of Sim.small_batch_args Sim.plain_set) = 1).
Proof.
  destruct (build_loaders_config (H := Sim.types) Sim.small_batch_args
              Sim.plain_set Sim.plain_set
              (loader_of Sim.small_batch_args Sim.plain_set)
              (loader_of Sim.small_batch_args Sim.plain_set) eq_refl)
    as [(Hn & _ & _ & Hdrop & Hbatches) _].
  split; [exact Hn | split; [exact Hdrop | exact Hbatches]].
Defined.

(** C7, as the claim has it: two splits of 20 clips, 2 classes, the
    fast-validation flag and the default batch size 32. The sampler draws 2
    clips, no batch is full, and [next(iter(train_dataloader))] raises
    StopIteration: no checkpoint is written. *)
Lemma main_default_20_clips_fails :
  (@main Sim.types (Sim.externals 20 20) Sim.fast_dev_run_args Sim.fresh_world).1
    = Err StopIteration ∧
  fs (@main Sim.types (Sim.externals 20 20) Sim.fast_dev_run_args Sim.fresh_world).2
    !! checkpoint_path = None.
Proof. split; vm_compute; reflexivity. Qed.

(** The same two splits with batch size 2. *)
Lemma main_fast_dev_run_checkpoint_witness :
  ∃ w',
    @main Sim.types (Sim.externals 20 20) Sim.small_batch_args Sim.fresh_world
      = (Ok tt, w') ∧
    is_Some (fs w' !! checkpoint_path) ∧
    train_steps w' = 1%nat ∧
    val_steps w' = 1%nat.
Proof.
  eapply (main_fast_dev_run_checkpoint (H0 := Sim.externals 20 20)
            (sim_training_contract 20 20) (sim_data_no_steps 20 20)
            Sim.small_batch_args Sim.fresh_world).
  - reflexivity.
  - vm_compute. reflexivity.
  - reflexivity.
  - vm_compute. discriminate.
  - vm_compute. discriminate.
  - vm_compute. discriminate.
  - intros w. eexists _, _. reflexivity.
  - intros w r w' Hret. vm_compute in Hret. injection Hret as <- <-. done.
Defined.

(** * Further properties of the script *)

(** ** ResizedVideo and MyUCF101 *)

Section AdapterProperties.
Context `{ExternalTypes}.

(** X1. A constructed transform always stores a tuple of exactly two
    items together with the mode it was given, and building a transform
    again from its stored size gives the same transform. *)
Theorem ResizedVideo_init_stored_pair (size : pyval) (mode : string)
    (self : ResizedVideo) :
  ResizedVideo_init size mode = Ok self →
  (∃ height width, rv_size self = PTuple [height; width]) ∧
  rv_interpolation_mode self = mode ∧
  ResizedVideo_init (rv_size self) mode = Ok self.
Proof.
  unfold ResizedVideo_init.
  destruct size as [| | | | items |];
    try (intros [= <-]; split; [eauto|split; reflexivity]).
  case_bool_decide as Hlen; [|discriminate].
  intros [= <-]. destruct items as [|x [|y [|]]]; try discriminate.
  split; [eauto|split; reflexivity].
Qed.

Lemma py_index_error {A} (l : list A) i e : py_index l i = Err e → e = IndexError.
Proof.
  unfold py_index. repeat case_match; congruence.
Qed.

Lemma recorded_label_error b video_idx e :
  recorded_label b video_idx = Err e → e = IndexError.
Proof.
  unfold recorded_label, rbind.
  destruct (py_index (indices b) video_idx) as [i|e1] eqn:Hi.
  - destruct (py_index (samples b) i) as [s|e2] eqn:Hs; [discriminate|].
    intros [= <-]. exact (py_index_error _ _ _ Hs).
  - intros [= <-]. exact (py_index_error _ _ _ Hi).
Qed.

(** X2. The three ways index access fails, in the order of the code: an
    exception of the clip lookup is passed on; a video index without a
    recorded sample raises IndexError before the transform is called,
    leaving the world as the clip lookup left it; an exception of the
    transform is passed on. *)
Theorem MyUCF101_getitem_errors (self : MyUCF101) (idx : Z) (w : World) :
  (∀ e w1,
     video_clips_get_clip (base self) idx w = (Err e, w1) →
     MyUCF101_getitem self idx w = (Err e, w1)) ∧
  (∀ video audio info video_idx w1 e,
     video_clips_get_clip (base self) idx w = (Ok (video, audio, info, video_idx), w1) →
     recorded_label (base self) video_idx = Err e →
     MyUCF101_getitem self idx w = (Err IndexError, w1)) ∧
  (∀ video audio info video_idx w1 label t e w2,
     video_clips_get_clip (base self) idx w = (Ok (video, audio, info, video_idx), w1) →
     recorded_label (base self) video_idx = Ok label →
     transform (base self) = Some t →
     t video w1 = (Err e, w2) →
     MyUCF101_getitem self idx w = (Err e, w2)).
Proof.
  split; [|split].
  - intros e w1 Hclip. unfold MyUCF101_getitem.
    rewrite (bind_eq _ _ _ _ _ Hclip). reflexivity.
  - intros video audio info video_idx w1 e Hclip Hlabel.
    unfold MyUCF101_getitem. rewrite (bind_eq _ _ _ _ _ Hclip); cbn beta iota.
    unfold recorded_label, rbind in Hlabel. unfold bind, lift.
    destruct (py_index (indices (base self)) video_idx) as [i|e1] eqn:Hi.
    + destruct (py_index (samples (base self)) i) as [s|e2] eqn:Hs; [discriminate|].
      by rewrite (py_index_error _ _ _ Hs).
    + by rewrite (py_index_error _ _ _ Hi).
  - intros video audio info video_idx w1 label t e w2 Hclip Hlabel Ht Hfail.
    destruct (recorded_label_inv _ _ _ Hlabel) as (i & s & Hi & Hs & _).
    unfold MyUCF101_getitem. rewrite (bind_eq _ _ _ _ _ Hclip); cbn beta iota.
    rewrite (bind_lift_ok _ _ _ _ Hi), (bind_lift_ok _ _ _ _ Hs), Ht.
    unfold bind. rewrite Hfail. reflexivity.
Qed.

(** X3. The audio track and the info dictionary of a clip are dropped:
    two datasets with the same samples, indices and transform whose clip
    lookups agree on the frames and on the video index return the same
    pair, or raise the same exception, in the same world. *)
Theorem MyUCF101_getitem_drops_audio_info (self other : MyUCF101) (idx : Z) (w : World) :
  samples (base self) = samples (base other) →
  indices (base self) = indices (base other) →
  transform (base self) = transform (base other) →
  clip_view (video_clips_get_clip (base self) idx w) =
    clip_view (video_clips_get_clip (base other) idx w) →
  MyUCF101_getitem self idx w = MyUCF101_getitem other idx w.
Proof.
  intros Hsamples Hindices Htransform Hview.
  unfold MyUCF101_getitem, bind.
  rewrite Hsamples, Hindices, Htransform.
  destruct (video_clips_get_clip (base self) idx w) as [[[[[v1 a1] i1] k1]|e1] w1],
           (video_clips_get_clip (base other) idx w) as [[[[[v2 a2] i2] k2]|e2] w2];
    cbn in Hview; simplify_eq; reflexivity.
Qed.

End AdapterProperties.

(** ** The metadata cache across runs *)

Section CacheProperties.
Context `{Externals}.

Lemma load_precomputed_metadata_dir file w :
  fs w !! file = Some Dir →
  load_precomputed_metadata file w = (Err (IsADirectoryError file), w).
Proof.
  intros Hdir.
  unfold load_precomputed_metadata, bind, os_path_exists, read_file.
  rewrite bool_decide_eq_true_2 by (rewrite Hdir; eauto).
  rewrite Hdir. reflexivity.
Qed.

Lemma load_precomputed_metadata_unreadable file content e w :
  fs w !! file = Some (File content) →
  pickle_loads content = Err e →
  load_precomputed_metadata file w = (Err e, w).
Proof.
  intros Hfile Hloads.
  unfold load_precomputed_metadata, bind, os_path_exists, read_file, lift.
  rewrite bool_decide_eq_true_2 by (rewrite Hfile; eauto).
  rewrite Hfile, Hloads. reflexivity.
Qed.

(** X4. A cache path that is a directory, or a cache file that does not
    unpickle, stops the split before the dataset constructor is called:
    the exception of [open] or of [pickle.load] is raised and the world is
    exactly as it was. *)
Theorem build_split_unreadable_cache (s : Split) (a : Args) (tr : Transform) (w : World) :
  (fs w !! metadata_file s = Some Dir →
   build_split s a tr w = (Err (IsADirectoryError (metadata_file s)), w)) ∧
  (∀ content e,
     fs w !! metadata_file s = Some (File content) →
     pickle_loads content = Err e →
     build_split s a tr w = (Err e, w)).
Proof.
  split.
  - intros Hdir. unfold build_split.
    rewrite (bind_eq _ _ _ _ _ (load_precomputed_metadata_dir _ _ Hdir)). reflexivity.
  - intros content e Hfile Hloads. unfold build_split.
    rewrite (bind_eq _ _ _ _ _
               (load_precomputed_metadata_unreadable _ _ _ _ Hfile Hloads)).
    reflexivity.
Qed.

(** The file system after a split is built: unchanged, or the cache file
    was absent and is now the pickled metadata of the split. *)
Lemma build_split_fs s a tr w r w' :
  UCF101_init_contract →
  build_split s a tr w = (r, w') →
  fs w' = fs w ∨
  (fs w !! metadata_file s = None ∧
   ∃ ds, r = Ok ds ∧
         fs w' = <[metadata_file s := File (pickle_dumps (metadata (base ds)))]> (fs w)).
Proof.
  intros Hcontract Hret. pose proof Hcontract as [Hfs _].
  destruct (fs w !! metadata_file s) as [[content|]|] eqn:Hfile.
  - left. destruct (pickle_loads content) as [md|e] eqn:Hloads.
    + rewrite (build_split_present _ _ _ _ _ _ Hcontract Hfile Hloads),
        MyUCF101_init_eq in Hret.
      destruct (UCF101_init _ w) as [[b|e] w1] eqn:Hinit;
        injection Hret as <- <-; exact (Hfs _ _ _ _ Hinit).
    + unfold build_split in Hret.
      rewrite (bind_eq _ _ _ _ _
                 (load_precomputed_metadata_unreadable _ _ _ _ Hfile Hloads)) in Hret.
      by injection Hret as <- <-.
  - left. unfold build_split in Hret.
    rewrite (bind_eq _ _ _ _ _ (load_precomputed_metadata_dir _ _ Hfile)) in Hret.
    by injection Hret as <- <-.
  - rewrite (build_split_absent _ _ _ _ Hcontract Hfile) in Hret.
    destruct (UCF101_init _ w) as [[b|e] w1] eqn:Hinit; injection Hret as <- <-.
    + right. split; [reflexivity|]. eexists. split; [reflexivity|].
      cbn. by rewrite (Hfs _ _ _ _ Hinit).
    + left. exact (Hfs _ _ _ _ Hinit).
Qed.

(** X5. Building a split never rewrites an existing cache and touches no
    other path: whatever the outcome, every path but the split's own cache
    file is as before; if the cache path existed, or if the split could not
    be built, the whole file system is as before. *)
Theorem build_split_frame :
  UCF101_init_contract →
  ∀ (s : Split) (a : Args) (tr : Transform) (w w' : World) (r : result MyUCF101),
    build_split s a tr w = (r, w') →
    (∀ path, path ≠ metadata_file s → fs w' !! path = fs w !! path) ∧
    (is_Some (fs w !! metadata_file s) → fs w' = fs w) ∧
    (∀ e, r = Err e → fs w' = fs w).
Proof.
  intros Hcontract s a tr w w' r Hret.
  destruct (build_split_fs _ _ _ _ _ _ Hcontract Hret)
    as [Hsame|(Habsent & ds & -> & Hnew)].
  - rewrite Hsame. done.
  - split; [|split].
    + intros path Hpath. rewrite Hnew. by apply lookup_insert_ne.
    + rewrite Habsent. by intros [? ?].
    + discriminate.
Qed.

(** After a split is built its cache file is there and unpickles; when
    this run wrote it, to the metadata of the split. *)
Lemma build_split_leaves_cache s a tr w ds w' :
  UCF101_init_contract → pickle_roundtrip →
  build_split s a tr w = (Ok ds, w') →
  ∃ content md,
    fs w' !! metadata_file s = Some (File content) ∧
    pickle_loads content = Ok md ∧
    (fs w !! metadata_file s = None → md = metadata (base ds)).
Proof.
  intros Hcontract Hround Hret. pose proof Hcontract as [Hfs _].
  destruct (fs w !! metadata_file s) as [[content|]|] eqn:Hfile.
  - destruct (pickle_loads content) as [md|e] eqn:Hloads.
    + exists content, md.
      destruct (build_split_fs _ _ _ _ _ _ Hcontract Hret)
        as [Hsame|(Habsent & _)]; [|congruence].
      rewrite Hsame. done.
    + unfold build_split in Hret.
      rewrite (bind_eq _ _ _ _ _
                 (load_precomputed_metadata_unreadable _ _ _ _ Hfile Hloads)) in Hret.
      discriminate.
  - unfold build_split in Hret.
    rewrite (bind_eq _ _ _ _ _ (load_precomputed_metadata_dir _ _ Hfile)) in Hret.
    discriminate.
  - rewrite (build_split_absent _ _ _ _ Hcontract Hfile) in Hret.
    destruct (UCF101_init _ w) as [[b|e] w1] eqn:Hinit; [|discriminate].
    injection Hret as <- <-.
    exists (pickle_dumps (metadata b)), (metadata b). cbn.
    rewrite lookup_insert_eq. auto.
Qed.

(** X6. The cache written by one run is read back by the next: once a
    split has been built, any later run that finds the same file system
    calls the dataset constructor with precomputed metadata, and when the
    first run wrote the cache that metadata is the one the first run's
    dataset had. *)
Theorem build_split_read_back :
  UCF101_init_contract → pickle_roundtrip →
  ∀ (s : Split) (a : Args) (tr : Transform) (w w1 : World) (ds : MyUCF101),
    build_split s a tr w = (Ok ds, w1) →
    ∃ md,
      (fs w !! metadata_file s = None → md = metadata (base ds)) ∧
      ∀ a2 tr2 w2,
        fs w2 = fs w1 →
        build_split s a2 tr2 w2 =
          MyUCF101_init None (split_kwargs s a2 tr2 (Some md)) w2.
Proof.
  intros Hcontract Hround s a tr w w1 ds Hret.
  destruct (build_split_leaves_cache _ _ _ _ _ _ Hcontract Hround Hret)
    as (content & md & Hfile & Hloads & Hmd).
  exists md. split; [exact Hmd|].
  intros a2 tr2 w2 Hsame.
  apply (build_split_present _ _ _ _ content md Hcontract); [|exact Hloads].
  rewrite Hsame. exact Hfile.
Qed.

Lemma build_split_cached_run s a tr w content md r w' :
  UCF101_init_contract →
  fs w !! metadata_file s = Some (File content) →
  pickle_loads content = Ok md →
  build_split s a tr w = (r, w') →
  fs w' = fs w ∧ index_scans w' = index_scans w.
Proof.
  intros Hcontract Hfile Hloads Hret. pose proof Hcontract as [Hfs Hscan].
  rewrite (build_split_present _ _ _ _ _ _ Hcontract Hfile Hloads),
    MyUCF101_init_eq in Hret.
  destruct (UCF101_init _ w) as [[b|e] w1] eqn:Hinit; injection Hret as <- <-;
    (split; [exact (Hfs _ _ _ _ Hinit)
            | exact (Hscan (split_kwargs s a tr (Some md)) md _ _ _ eq_refl Hinit)]).
Qed.

(** X7. After one run has built the two splits, both cache files exist,
    and a later run that finds the same file system builds its splits
    without scanning any video and without writing anything, whatever its
    arguments and whatever its outcome. *)
Theorem build_datasets_rerun :
  UCF101_init_contract → pickle_roundtrip → seed_contract →
  ∀ (a : Args) (w w1 : World) (train_set val_set : MyUCF101),
    build_datasets a w = (Ok (train_set, val_set), w1) →
    is_Some (fs w1 !! metadata_file Train) ∧
    is_Some (fs w1 !! metadata_file Val) ∧
    ∀ a2 w2 r w3,
      fs w2 = fs w1 →
      build_datasets a2 w2 = (r, w3) →
      fs w3 = fs w2 ∧ index_scans w3 = index_scans w2.
Proof.
  intros Hcontract Hround Hseed a w w1 train_set val_set Hret.
  unfold build_datasets in Hret.
  apply bind_ok_inv in Hret as (sd & wa & _ & Hret).
  apply bind_ok_inv in Hret as (resized & wb & _ & Hret).
  apply bind_ok_inv in Hret as (ts & wc & Htrain & Hret).
  apply bind_ok_inv in Hret as (vs & wd & Hval & Hret).
  injection Hret as <- <- <-.
  destruct (build_split_leaves_cache _ _ _ _ _ _ Hcontract Hround Htrain)
    as (ct & mt & Hct & Hlt & _).
  destruct (build_split_leaves_cache _ _ _ _ _ _ Hcontract Hround Hval)
    as (cv & mv & Hcv & Hlv & _).
  assert (Hct' : fs wd !! metadata_file Train = Some (File ct)).
  { rewrite (build_split_other_file Val Train _ _ _ _ _ Hcontract ltac:(done) Hval).
    exact Hct. }
  split; [rewrite Hct'; eauto|]. split; [rewrite Hcv; eauto|].
  intros a2 w2 r w3 Hsame Hrun.
  unfold build_datasets in Hrun. unfold bind at 1 in Hrun.
  destruct (seed_everything (seed a2) w2) as [[sd2|e] w2a] eqn:Hs;
    destruct (Hseed _ _ _ _ Hs) as [Hfa Hsa];
    [|injection Hrun as <- <-; done].
  unfold bind at 1, lift in Hrun.
  destruct (ResizedVideo_init (video_size_value a2) default_interpolation_mode)
    as [rv|e]; [|injection Hrun as <- <-; done].
  unfold bind at 1 in Hrun.
  destruct (build_split Train a2 _ w2a) as [[ts2|e] w2b] eqn:Ht.
  - apply (build_split_cached_run _ _ _ _ ct mt) in Ht as [Hfb Hsb];
      [|done|congruence|done].
    unfold bind at 1 in Hrun.
    destruct (build_split Val a2 _ w2b) as [[vs2|e] w2c] eqn:Hv;
      apply (build_split_cached_run _ _ _ _ cv mv) in Hv as [Hfc Hsc];
      try done; try congruence;
      injection Hrun as <- <-; split; congruence.
  - apply (build_split_cached_run _ _ _ _ ct mt) in Ht as [Hfb Hsb];
      [|done|congruence|done].
    injection Hrun as <- <-. split; congruence.
Qed.

End CacheProperties.

(** ** Loaders and the first batch *)

Section LoaderProperties.
Context `{Externals}.

(** X8. One pass over a loader built by [main] draws [len // 10] clips,
    at most a tenth of the split, and serves whole batches only: fewer
    than [batch_size] of the draws are dropped. *)
Theorem build_loader_pass_size (a : Args) (ds : MyUCF101) (dl : DataLoader) :
  build_loader a ds = Ok dl →
  10 * num_samples (sampler dl) ≤ len ds < 10 * (num_samples (sampler dl) + 1) ∧
  0 ≤ num_batches dl ∧
  num_batches dl * batch_size dl ≤ num_samples (sampler dl)
    < (num_batches dl + 1) * batch_size dl.
Proof.
  intros Hdl. apply build_loader_inv in Hdl as (-> & Hn & Hb & _).
  unfold num_batches, loader_of; cbn.
  split; [|split].
  - Z.to_euclidean_division_equations; lia.
  - apply Z.div_pos; lia.
  - pose proof (Z.div_mod (len ds / 10) (arg_batch_size a) ltac:(lia)) as Hdm.
    pose proof (Z.mod_pos_bound (len ds / 10) (arg_batch_size a) Hb). nia.
Qed.

(** X9. Once the two splits are built, [main] stops before anything is
    printed and before the model is built when torch refuses the sampler or
    loader configuration (a split of fewer than ten clips, a batch size
    that is not positive, a negative worker count: ValueError), and when one
    tenth of the training split does not fill a batch (StopIteration). *)
Theorem main_loader_errors (a : Args) (w w1 : World) (train_set val_set : MyUCF101) :
  build_datasets a w = (Ok (train_set, val_set), w1) →
  (len train_set < 10 ∨ len val_set < 10 ∨
   arg_batch_size a ≤ 0 ∨ num_workers a < 0 →
   ∃ msg, main a w = (Err (ValueError msg), w1)) ∧
  (10 ≤ len train_set → 10 ≤ len val_set →
   0 < arg_batch_size a → 0 ≤ num_workers a →
   len train_set / 10 < arg_batch_size a →
   main a w = (Err StopIteration, w1)).
Proof.
  intros Hsets. split.
  - intros Hbad. unfold main. rewrite (bind_eq _ _ _ _ _ Hsets); cbn beta iota.
    unfold bind, lift, build_loaders, build_loader, rbind,
      RandomSampler_init, DataLoader_init.
    assert (Ht : len train_set < 10 → len train_set / 10 ≤ 0)
      by (intros ?; Z.to_euclidean_division_equations; lia).
    assert (Hv : len val_set < 10 → len val_set / 10 ≤ 0)
      by (intros ?; Z.to_euclidean_division_equations; lia).
    destruct (len train_set / 10 <=? 0) eqn:H1; [eauto|].
    destruct (num_workers a <? 0) eqn:H2; [eauto|].
    destruct (arg_batch_size a <=? 0) eqn:H3; [eauto|].
    destruct (len val_set / 10 <=? 0) eqn:H4; [eauto|].
    lia.
  - intros Ht Hv Hb Hw Hsmall.
    unfold main. rewrite (bind_eq _ _ _ _ _ Hsets); cbn beta iota.
    unfold build_loaders.
    rewrite (build_loader_defined _ _ Ht Hb Hw), (build_loader_defined _ _ Hv Hb Hw).
    cbn [rbind]. rewrite (bind_lift_ok _ _ _ _ eq_refl).
    unfold train_and_save, next_iter.
    assert (Hzero : num_batches (loader_of a train_set) = 0).
    { unfold num_batches, loader_of; cbn. apply Z.div_small.
      split; [apply Z.div_pos; lia | exact Hsmall]. }
    rewrite Hzero. reflexivity.
Qed.

(** X11. The evaluation pipeline of [main]: the [ResizedVideo] step is
    always constructed from the command line's video size, and a clip that
    [ToTensorVideo] turns into a (C, T, H, W) tensor which [resize] accepts
    comes out as a (C, T, height, width) tensor of the requested size. *)
Theorem test_transform_shape :
  resize_contract →
  ∀ (a : Args) (clip clip1 : Tensor) (w0 w1 : World) (c t h w : Z),
    ToTensorVideo clip w0 = (Ok clip1, w1) →
    shape clip1 = [c; t; h; w] →
    is_ok (resize clip1 (video_size_value a) default_interpolation_mode) = true →
    ∃ self out,
      ResizedVideo_init (video_size_value a) default_interpolation_mode = Ok self ∧
      Compose [ToTensorVideo; ResizedVideo_transform self] clip w0 = (Ok out, w1) ∧
      shape out = [c; t; (video_size a).1; (video_size a).2].
Proof.
  intros Hresize a clip clip1 w0 w1 c t h w Htensor Hshape Hok.
  destruct (resize clip1 (video_size_value a) default_interpolation_mode)
    as [out|e] eqn:Hout; [|discriminate].
  eexists _, out. split; [reflexivity|]. split.
  - cbn [Compose]. rewrite (bind_eq _ _ _ _ _ Htensor); cbn beta iota.
    unfold bind, ResizedVideo_transform, ResizedVideo_call, lift.
    cbn [ResizedVideo_init video_size_value rv_size rv_interpolation_mode
         bool_decide decide_rel length].
    rewrite Hout. reflexivity.
  - exact (Hresize _ _ _ _ _ _ _ _ _ Hshape Hout).
Qed.

End LoaderProperties.

(** ** The command line and the arguments of main *)

Section CommandProperties.
Context `{Externals}.

Lemma process_options_cons argv o os w :
  process_options argv (o :: os) w =
    match (process_option argv o w).1 with
    | Ok v => match (process_options argv os w).1 with
              | Ok vs => (Ok (v :: vs), w)
              | Err e => (Err e, w)
              end
    | Err e => (Err e, w)
    end.
Proof.
  cbn [process_options]. unfold bind.
  destruct (parses_process_option argv o w) as ([v|e] & -> & _); [|done].
  destruct (parses_process_options argv os w) as ([vs|e] & -> & _); done.
Qed.

Lemma process_option_usage argv o w e w' :
  process_option argv o w = (Err e, w') → is_usage_error e = true.
Proof.
  intros Hfail. destruct (parses_process_option argv o w) as (r & Hr & He).
  rewrite Hfail in Hr. by injection Hr as <- _.
Qed.

Lemma path_option_spec argv w decls name r w' :
  process_option argv
    {| opt_decls := decls; opt_name := name; opt_type := PathT true;
       opt_required := true; opt_default := None; opt_is_flag := false |} w = (r, w') →
  match r with
  | Ok v => ∃ path, v = PStr path ∧ path_given argv w name path
  | Err _ => ∀ path, ¬ path_given argv w name path
  end.
Proof.
  unfold process_option, path_given; cbn.
  destruct (argv !! name) as [[|path [|]]|]; cbn;
    try (intros [= <- <-]; intros ? [? ?]; congruence).
  unfold bind, os_path_exists.
  case_bool_decide as Hex; cbn; intros [= <- <-].
  - eauto.
  - intros ? [[= <-] ?]. done.
Qed.

Lemma int_option_spec argv w decls name dflt r w' :
  process_option argv
    {| opt_decls := decls; opt_name := name; opt_type := IntT;
       opt_required := false; opt_default := Some (PInt dflt);
       opt_is_flag := false |} w = (r, w') →
  match r with
  | Ok v => ∃ z, v = PInt z ∧ int_given argv name dflt z
  | Err _ => ∀ z, ¬ int_given argv name dflt z
  end.
Proof.
  unfold process_option, int_given; cbn.
  destruct (argv !! name) as [[|word [|]]|]; cbn;
    try (intros [= <- <-]; first [by eauto | by intros ? ?]).
  destruct (py_int word) as [z|]; intros [= <- <-]; [eauto|by intros ? ?].
Qed.

Lemma size_option_spec argv w decls name h0 w0 r w' :
  process_option argv
    {| opt_decls := decls; opt_name := name; opt_type := TupleT [IntT; IntT];
       opt_required := false; opt_default := Some (PTuple [PInt h0; PInt w0]);
       opt_is_flag := false |} w = (r, w') →
  match r with
  | Ok v => ∃ size, v = PTuple [PInt size.1; PInt size.2] ∧
                    size_given argv name (h0, w0) size
  | Err _ => ∀ size, ¬ size_given argv name (h0, w0) size
  end.
Proof.
  unfold process_option, size_given; cbn.
  destruct (argv !! name) as [[|height [|width [|]]]|]; cbn;
    try (intros [= <- <-]; first [by exists (h0, w0) | by intros ? ?]).
  - unfold bind; cbn. destruct (py_int height); intros [= <- <-]; by intros ? ?.
  - unfold bind; cbn.
    destruct (py_int height) as [h|]; cbn;
      [|intros [= <- <-]; by intros ? [? ?]].
    destruct (py_int width) as [wd|]; cbn; intros [= <- <-];
      [by exists (h, wd) | by intros ? [? ?]].
  - unfold bind; cbn.
    destruct (py_int height) as [h|]; cbn; [|intros [= <- <-]; by intros ? ?].
    destruct (py_int width) as [wd|]; cbn; intros [= <- <-]; by intros ? ?.
Qed.

Lemma flag_option_spec argv w decls name r w' :
  process_option argv
    {| opt_decls := decls; opt_name := name; opt_type := BoolT;
       opt_required := false; opt_default := Some (PBool false);
       opt_is_flag := true |} w = (r, w') →
  match r with
  | Ok v => ∃ b, v = PBool b ∧ flag_given argv name b
  | Err _ => ∀ b, ¬ flag_given argv name b
  end.
Proof.
  unfold process_option, flag_given; cbn.
  destruct (argv !! name) as [[|word words]|]; cbn; intros [= <- <-];
    first [by eauto | by intros ? ?].
Qed.

Lemma int_given_unique argv name dflt z z' :
  int_given argv name dflt z → int_given argv name dflt z' → z = z'.
Proof.
  unfold int_given. destruct (argv !! name) as [[|word [|]]|]; try done; congruence.
Qed.

Lemma parsed_unique argv w a a' :
  parsed argv w a → parsed argv w a' → a = a'.
Proof.
  intros ([Hr _] & [Ha _] & Hnc & Hb & Hf & Hv & He & Hw & Hfd & Hs)
         ([Hr' _] & [Ha' _] & Hnc' & Hb' & Hf' & Hv' & He' & Hw' & Hfd' & Hs').
  destruct a, a'; cbn in *.
  pose proof (int_given_unique _ _ _ _ _ Hnc Hnc').
  pose proof (int_given_unique _ _ _ _ _ Hb Hb').
  pose proof (int_given_unique _ _ _ _ _ Hf Hf').
  pose proof (int_given_unique _ _ _ _ _ He He').
  pose proof (int_given_unique _ _ _ _ _ Hw Hw').
  pose proof (int_given_unique _ _ _ _ _ Hs Hs').
  assert (video_size0 = video_size1).
  { unfold size_given in Hv, Hv'.
    destruct (argv !! "video_size") as [[|? [|? [|]]]|]; try done; [|congruence].
    destruct Hv, Hv', video_size0, video_size1; cbn in *; congruence. }
  assert (fast_dev_run0 = fast_dev_run1).
  { unfold flag_given in Hfd, Hfd'.
    destruct (argv !! "fast_dev_run") as [[|]|]; try done; congruence. }
  congruence.
Qed.

(** Every command line is either refused, or stands for arguments with
    which [main] is called. *)
Lemma command_cases argv w :
  (∃ e, command argv w = (Err e, w) ∧ is_usage_error e = true ∧
        ∀ a, ¬ parsed argv w a) ∨
  (∃ a, parsed argv w a ∧ command argv w = main a w).
Proof.
  unfold command, bind, options. rewrite !process_options_cons.
  change (process_options argv [] w) with (Ok (@nil pyval), w).
  repeat match goal with
  | |- context [ (process_option argv ?o w).1 ] =>
      let E := fresh "E" in
      destruct (process_option argv o w) as [[?v|?e] ?w'] eqn:E; cbn [fst];
      [| left; eexists; split; [reflexivity|];
         split; [exact (process_option_usage _ _ _ _ _ E)|];
         first [ apply path_option_spec in E | apply int_option_spec in E
               | apply size_option_spec in E | apply flag_option_spec in E ];
         intros a (? & ? & ? & ? & ? & ? & ? & ? & ? & ?);
         eapply E; eassumption ]
  end.
  right.
  repeat match goal with
  | E : process_option _ _ _ = _ |- _ =>
      first [ apply path_option_spec in E as (? & -> & ?)
            | apply int_option_spec in E as (? & -> & ?)
            | apply size_option_spec in E as ([? ?] & -> & ?)
            | apply flag_option_spec in E as (? & -> & ?) ]
  end.
  eexists {| dataset_root := _ |}. split; [|reflexivity].
  unfold parsed; cbn. done.
Qed.

(** X12. The arguments of [main]: for a command line that names two
    existing paths and gives every other option at most once with words
    that read as integers, [main] is called with those values and with the
    defaults 101, 32, 32, (224, 224), 5, 0, False and 42 for what is not
    given. *)
Theorem command_runs_main (argv : gmap string (list string)) (w : World) (a : Args) :
  parsed argv w a → command argv w = main a w.
Proof.
  intros Hparsed.
  destruct (command_cases argv w) as [(e & _ & _ & Hnone)|(a' & Hparsed' & Heq)].
  - by destruct (Hnone a).
  - by rewrite (parsed_unique _ _ _ _ Hparsed Hparsed').
Qed.


End CommandProperties.

(** ** The text of a transform *)

Section ReprProperties.
Variable str_repr : string → string.

Lemma string_app_assoc (a b c : string) : (a +:+ b) +:+ c = a +:+ (b +:+ c).
Proof.
  induction a as [|x a IH]; [reflexivity|].
  change (String x ((a +:+ b) +:+ c) = String x (a +:+ (b +:+ c))).
  by rewrite IH.
Qed.

Lemma string_app_close_inj (m m' : string) : m +:+ ")" = m' +:+ ")" → m = m'.
Proof.
  revert m'. induction m as [|x m IH]; intros [|y m']; cbn; intros [=]; subst.
  - reflexivity.
  - by destruct m'.
  - by destruct m.
  - f_equal. by apply IH.
Qed.

(** A decimal text is read up to its first character that is not one of
    its own. *)
Lemma number_text_split (a a' : string) (c c' : ascii) (r r' : string) :
  number_text a = true → number_text a' = true →
  is_number_char c = false → is_number_char c' = false →
  a +:+ String c r = a' +:+ String c' r' →
  a = a' ∧ r = r'.
Proof.
  revert a'. induction a as [|x a IH]; intros [|y a']; cbn;
    intros Ha Ha' Hc Hc' [=]; subst.
  - done.
  - apply andb_prop in Ha' as [Hy _]. congruence.
  - apply andb_prop in Ha as [Hx _]. congruence.
  - apply andb_prop in Ha as [_ Ha]. apply andb_prop in Ha' as [_ Ha'].
    destruct (IH a' Ha Ha' Hc Hc' ltac:(assumption)) as [-> ->]. done.
Qed.

Lemma number_text_uint (d : Decimal.uint) :
  number_text (DecimalString.NilEmpty.string_of_uint d) = true.
Proof. induction d; cbn; auto. Qed.

Lemma number_text_py_str_int (z : Z) : number_text (py_str_int z) = true.
Proof.
  unfold py_str_int, DecimalString.NilZero.string_of_int,
    DecimalString.NilZero.string_of_uint.
  destruct (Z.to_int z) as [d|d]; destruct d; cbn;
    try reflexivity; apply number_text_uint.
Qed.

Lemma py_str_int_inj (z z' : Z) : py_str_int z = py_str_int z' → z = z'.
Proof.
  intros Heq.
  assert (Hnil : ∀ n, Z.to_int n ≠ Decimal.Pos Decimal.Nil ∧
                      Z.to_int n ≠ Decimal.Neg Decimal.Nil).
  { intros [|p|p]; cbn; split; try discriminate;
      intros [= Hp]; by apply DecimalPos.Unsigned.to_uint_nonnil in Hp. }
  apply (f_equal DecimalString.NilZero.int_of_string) in Heq.
  unfold py_str_int in Heq.
  rewrite !DecimalString.NilZero.isi in Heq by apply Hnil.
  injection Heq as Heq.
  rewrite <- (DecimalZ.of_to z), <- (DecimalZ.of_to z'). by rewrite Heq.
Qed.

Lemma ResizedVideo_repr_int_pair (height width : Z) (mode : string) :
  ResizedVideo_repr str_repr
    {| rv_size := PTuple [PInt height; PInt width]; rv_interpolation_mode := mode |} =
  "ResizedVideo(size=(" +:+ py_str_int height +:+ ", " +:+ py_str_int width +:+
  "), interpolation_mode=" +:+ mode +:+ ")".
Proof.
  unfold ResizedVideo_repr; cbn. by rewrite !string_app_assoc.
Qed.

(** X14. For a transform built from an integer or from a pair of integers,
    [__repr__] is the text ResizedVideo(size=(H, W), interpolation_mode=M)
    with H and W in decimal, and it tells such transforms apart: two of
    them with the same text have the same size and the same mode. *)
Theorem ResizedVideo_repr_int_sizes (size size' : pyval) (hw hw' : Z * Z)
    (mode mode' : string) (self self' : ResizedVideo) :
  target_size size = Some hw →
  target_size size' = Some hw' →
  ResizedVideo_init size mode = Ok self →
  ResizedVideo_init size' mode' = Ok self' →
  ResizedVideo_repr str_repr self =
    "ResizedVideo(size=(" +:+ py_str_int hw.1 +:+ ", " +:+ py_str_int hw.2 +:+
    "), interpolation_mode=" +:+ mode +:+ ")" ∧
  (ResizedVideo_repr str_repr self = ResizedVideo_repr str_repr self' →
   self = self').
Proof.
  destruct hw as [h w], hw' as [h' w'].
  intros Hsize Hsize' Hself Hself'.
  rewrite (ResizedVideo_init_target _ _ _ mode Hsize) in Hself.
  rewrite (ResizedVideo_init_target _ _ _ mode' Hsize') in Hself'.
  injection Hself as <-. injection Hself' as <-.
  rewrite !ResizedVideo_repr_int_pair. split; [reflexivity|].
  cbn. intros [= Heq].
  apply number_text_split in Heq as [Hh Heq];
    [|apply number_text_py_str_int..|reflexivity|reflexivity].
  injection Heq as Heq.
  apply number_text_split in Heq as [Hw Heq];
    [|apply number_text_py_str_int..|reflexivity|reflexivity].
  apply (String.app_inj ", interpolation_mode=") in Heq.
  apply string_app_close_inj in Heq.
  apply py_str_int_inj in Hh, Hw. by subst.
Qed.

End ReprProperties.

(** ** The further properties at concrete inputs *)

Lemma sim_pickle_roundtrip n_train n_val :
  @pickle_roundtrip Sim.types (Sim.externals n_train n_val).
Proof. intros md. reflexivity. Qed.

Lemma sim_seed_contract n_train n_val :
  @seed_contract Sim.types (Sim.externals n_train n_val).
Proof. intros sd w r w' [= <- <-]. done. Qed.

Lemma ResizedVideo_init_stored_pair_witness :
  (∃ height width, PTuple [PInt 224; PInt 224] = PTuple [height; width]) ∧
  "bilinear" = "bilinear" ∧
  ResizedVideo_init (PTuple [PInt 224; PInt 224]) "bilinear" =
    Ok {| rv_size := PTuple [PInt 224; PInt 224];
          rv_interpolation_mode := "bilinear" |}.
Proof.
  exact (ResizedVideo_init_stored_pair (PInt 224) "bilinear"
           {| rv_size := PTuple [PInt 224; PInt 224];
              rv_interpolation_mode := "bilinear" |} eq_refl).
Defined.

Lemma MyUCF101_getitem_drops_audio_info_witness :
  MyUCF101_getitem Sim.plain_set 3 Sim.fresh_world =
  MyUCF101_getitem Sim.sound_set 3 Sim.fresh_world.
Proof.
  apply (MyUCF101_getitem_drops_audio_info (H := Sim.types)
           Sim.plain_set Sim.sound_set 3 Sim.fresh_world); reflexivity.
Defined.

Lemma build_split_frame_witness :
  (∀ path, path ≠ metadata_file Train →
           fs Sim.first_world !! path = fs Sim.fresh_world !! path) ∧
  (is_Some (fs Sim.fresh_world !! metadata_file Train) →
   fs Sim.first_world = fs Sim.fresh_world) ∧
  (∀ e, Ok Sim.first_set = Err e → fs Sim.first_world = fs Sim.fresh_world).
Proof.
  exact (build_split_frame (H0 := Sim.externals 20 20)
           (sim_UCF101_init_contract 20 20) Train Sim.fast_dev_run_args
           Sim.train_transform Sim.fresh_world Sim.first_world
           (Ok Sim.first_set) eq_refl).
Defined.

Lemma build_split_read_back_witness :
  ∃ md,
    (fs Sim.fresh_world !! metadata_file Train = None → md = [Byte.x01]) ∧
    ∀ a2 tr2 w2,
      fs w2 = fs Sim.first_world →
      @build_split Sim.types (Sim.externals 20 20) Train a2 tr2 w2 =
        @MyUCF101_init Sim.types (Sim.externals 20 20) None
          (split_kwargs Train a2 tr2 (Some md)) w2.
Proof.
  exact (build_split_read_back (H0 := Sim.externals 20 20)
           (sim_UCF101_init_contract 20 20) (sim_pickle_roundtrip 20 20)
           Train Sim.fast_dev_run_args Sim.train_transform
           Sim.fresh_world Sim.first_world Sim.first_set eq_refl).
Defined.

Lemma build_datasets_rerun_witness :
  is_Some (fs (Sim.built_world Sim.fast_dev_run_args) !! metadata_file Train) ∧
  is_Some (fs (Sim.built_world Sim.fast_dev_run_args) !! metadata_file Val) ∧
  ∀ a2 w2 r w3,
    fs w2 = fs (Sim.built_world Sim.fast_dev_run_args) →
    @build_datasets Sim.types (Sim.externals 20 20) a2 w2 = (r, w3) →
    fs w3 = fs w2 ∧ index_scans w3 = index_scans w2.
Proof.
  apply (build_datasets_rerun (H0 := Sim.externals 20 20)
           (sim_UCF101_init_contract 20 20) (sim_pickle_roundtrip 20 20)
           (sim_seed_contract 20 20) Sim.fast_dev_run_args Sim.fresh_world
           (Sim.built_world Sim.fast_dev_run_args)
           (Sim.built_train Sim.fast_dev_run_args)
           (Sim.built_val Sim.fast_dev_run_args)).
  reflexivity.
Defined.

Lemma build_loader_pass_size_witness :
  10 * num_samples (sampler (loader_of Sim.small_batch_args Sim.plain_set))
    ≤ len Sim.plain_set
    < 10 * (num_samples (sampler (loader_of Sim.small_batch_args Sim.plain_set)) + 1) ∧
  0 ≤ num_batches (loader_of Sim.small_batch_args Sim.plain_set) ∧
  num_batches (loader_of Sim.small_batch_args Sim.plain_set) *
    batch_size (loader_of Sim.small_batch_args Sim.plain_set)
    ≤ num_samples (sampler (loader_of Sim.small_batch_args Sim.plain_set))
    < (num_batches (loader_of Sim.small_batch_args Sim.plain_set) + 1) *
      batch_size (loader_of Sim.small_batch_args Sim.plain_set).
Proof.
  exact (build_loader_pass_size (H := Sim.types) Sim.small_batch_args
           Sim.plain_set (loader_of Sim.small_batch_args Sim.plain_set) eq_refl).
Defined.

Lemma main_loader_errors_witness :
  (len (Sim.built_train Sim.fast_dev_run_args) < 10 ∨
   len (Sim.built_val Sim.fast_dev_run_args) < 10 ∨
   arg_batch_size Sim.fast_dev_run_args ≤ 0 ∨ num_workers Sim.fast_dev_run_args < 0 →
   ∃ msg, @main Sim.types (Sim.externals 20 20) Sim.fast_dev_run_args Sim.fresh_world =
            (Err (ValueError msg), Sim.built_world Sim.fast_dev_run_args)) ∧
  (10 ≤ len (Sim.built_train Sim.fast_dev_run_args) →
   10 ≤ len (Sim.built_val Sim.fast_dev_run_args) →
   0 < arg_batch_size Sim.fast_dev_run_args → 0 ≤ num_workers Sim.fast_dev_run_args →
   len (Sim.built_train Sim.fast_dev_run_args) / 10 < arg_batch_size Sim.fast_dev_run_args →
   @main Sim.types (Sim.externals 20 20) Sim.fast_dev_run_args Sim.fresh_world =
     (Err StopIteration, Sim.built_world Sim.fast_dev_run_args)).
Proof.
  apply (main_loader_errors (H0 := Sim.externals 20 20) Sim.fast_dev_run_args
           Sim.fresh_world (Sim.built_world Sim.fast_dev_run_args)
           (Sim.built_train Sim.fast_dev_run_args)
           (Sim.built_val Sim.fast_dev_run_args)).
  reflexivity.
Defined.

Lemma main_small_split_fails_witness :
  @main Sim.types (Sim.externals 20 20) Sim.fast_dev_run_args Sim.fresh_world
    ≠ (Ok tt, Sim.fresh_world).
Proof.
  apply (main_small_split_fails (H0 := Sim.externals 20 20)).
  intros kw w0 b w1 Hinit Htrain. cbn in Hinit. unfold Sim.synthetic_init in Hinit.
  rewrite Htrain in Hinit.
  destruct (fs w0 !! kw_root kw); [|discriminate].
  destruct (kw_precomputed_metadata kw); injection Hinit as <- _;
    vm_compute; reflexivity.
Defined.

Lemma test_transform_shape_witness :
  ∃ self out,
    ResizedVideo_init (video_size_value Sim.fast_dev_run_args)
      default_interpolation_mode = Ok self ∧
    @Compose Sim.types
      [@ToTensorVideo Sim.types (Sim.externals 20 20);
       @ResizedVideo_transform Sim.types (Sim.externals 20 20) self]
      [32; 240; 320; 3] Sim.fresh_world = (Ok out, Sim.fresh_world) ∧
    out = [3; 32; 224; 224].
Proof.
  apply (test_transform_shape (H0 := Sim.externals 20 20)
           (sim_resize_contract 20 20) Sim.fast_dev_run_args
           [32; 240; 320; 3] [3; 32; 240; 320] Sim.fresh_world Sim.fresh_world
           3 32 240 320); reflexivity.
Defined.

Lemma command_runs_main_witness :
  @command Sim.types (Sim.externals 20 20) Sim.small_batch_argv Sim.fresh_world =
  @main Sim.types (Sim.externals 20 20) Sim.small_batch_args Sim.fresh_world.
Proof.
  apply (command_runs_main (H0 := Sim.externals 20 20)).
  vm_compute. repeat split; eauto.
Defined.

Lemma ResizedVideo_repr_int_sizes_witness :
  ResizedVideo_repr id
    {| rv_size := PTuple [PInt 224; PInt 224]; rv_interpolation_mode := "bilinear" |} =
    "ResizedVideo(size=(224, 224), interpolation_mode=bilinear)" ∧
  (ResizedVideo_repr id
     {| rv_size := PTuple [PInt 224; PInt 224]; rv_interpolation_mode := "bilinear" |} =
   ResizedVideo_repr id
     {| rv_size := PTuple [PInt 112; PInt 160]; rv_interpolation_mode := "nearest" |} →
   {| rv_size := PTuple [PInt 224; PInt 224]; rv_interpolation_mode := "bilinear" |} =
   {| rv_size := PTuple [PInt 112; PInt 160]; rv_interpolation_mode := "nearest" |}).
Proof.
  exact (ResizedVideo_repr_int_sizes id (PInt 224) (PTuple [PInt 112; PInt 160])
           (224, 224) (112, 160) "bilinear" "nearest" _ _
           eq_refl eq_refl eq_refl eq_refl).
Defined.
